(** * DevMode consensus of the Sawtooth validator

    A shallow embedding of
    [validator/sawtooth_validator/journal/consensus/dev_mode/dev_mode_consensus.py]:
    the three classes [BlockPublisher], [BlockVerifier] and [ForkResolver],
    together with the pieces of the Python runtime they call ([hashlib.md5],
    [int(_, 16)], int/float arithmetic, [random.uniform]).

    Conventions.
    - A Python [int] is a [Z]; a Python [float] is a binary64 value of
      [SpecFloat.spec_float] with the operations of the Standard Library at
      [prec = 53], [emax = 1024]; a number that may be either is a [pynum].
    - A Python [str] is represented by the bytes of its UTF-8 encoding (the
      header fields read here are protobuf [string] fields, which hold valid
      text), so [s.encode()] is [list_byte_of_string s]; [bytes] are
      [list byte].
    - A call that may raise returns a [result]; a method that mutates [self]
      or its argument returns the new values next to its result.
    - [time.time()] and [random.random()] are inputs of the methods that call
      them. *)

From Stdlib Require Import ZArith List Bool String Ascii Lia SpecFloat.
From Stdlib Require Strings.Byte.
Import Stdlib.Strings.Byte.
Import ListNotations.
Local Open Scope Z_scope.

(** ** Results of calls that may raise *)

Inductive exn : Type :=
| ValueError
| OverflowError.

Inductive result (A : Type) : Type :=
| Return (a : A)
| Raise (e : exn).

Arguments Return {A} a.
Arguments Raise {A} e.

Definition bind {A B : Type} (r : result A) (k : A -> result B) : result B :=
  match r with
  | Return a => k a
  | Raise e => Raise e
  end.

Notation "x <- r ;; k" := (bind r (fun x => k))
  (at level 61, r at next level, right associativity).

(** ** hashlib.md5 (RFC 1321) *)

Module hashlib.

(** 32-bit words are integers kept in [0, 2^32). *)
Definition wrap32 (x : Z) : Z := x mod 2 ^ 32.
Definition add32 (x y : Z) : Z := wrap32 (x + y).
Definition not32 (x : Z) : Z := Z.lxor x 0xffffffff.
Definition rotl32 (x c : Z) : Z :=
  wrap32 (Z.lor (Z.shiftl x c) (Z.shiftr x (32 - c))).

Definition F (x y z : Z) : Z := Z.lor (Z.land x y) (Z.land (not32 x) z).
Definition G (x y z : Z) : Z := Z.lor (Z.land x z) (Z.land y (not32 z)).
Definition H (x y z : Z) : Z := Z.lxor (Z.lxor x y) z.
Definition I (x y z : Z) : Z := Z.lxor y (Z.lor x (not32 z)).

(** T[i] = floor(2^32 * abs(sin(i + 1))), by rows of four. *)
Definition T : list Z :=
  [ 0xd76aa478; 0xe8c7b756; 0x242070db; 0xc1bdceee;
    0xf57c0faf; 0x4787c62a; 0xa8304613; 0xfd469501;
    0x698098d8; 0x8b44f7af; 0xffff5bb1; 0x895cd7be;
    0x6b901122; 0xfd987193; 0xa679438e; 0x49b40821;
    0xf61e2562; 0xc040b340; 0x265e5a51; 0xe9b6c7aa;
    0xd62f105d; 0x02441453; 0xd8a1e681; 0xe7d3fbc8;
    0x21e1cde6; 0xc33707d6; 0xf4d50d87; 0x455a14ed;
    0xa9e3e905; 0xfcefa3f8; 0x676f02d9; 0x8d2a4c8a;
    0xfffa3942; 0x8771f681; 0x6d9d6122; 0xfde5380c;
    0xa4beea44; 0x4bdecfa9; 0xf6bb4b60; 0xbebfbc70;
    0x289b7ec6; 0xeaa127fa; 0xd4ef3085; 0x04881d05;
    0xd9d4d039; 0xe6db99e5; 0x1fa27cf8; 0xc4ac5665;
    0xf4292244; 0x432aff97; 0xab9423a7; 0xfc93a039;
    0x655b59c3; 0x8f0ccc92; 0xffeff47d; 0x85845dd1;
    0x6fa87e4f; 0xfe2ce6e0; 0xa3014314; 0x4e0811a1;
    0xf7537e82; 0xbd3af235; 0x2ad7d2bb; 0xeb86d391 ].

(** Per-step left rotations. *)
Definition S : list Z :=
  [ 7; 12; 17; 22; 7; 12; 17; 22; 7; 12; 17; 22; 7; 12; 17; 22;
    5; 9; 14; 20; 5; 9; 14; 20; 5; 9; 14; 20; 5; 9; 14; 20;
    4; 11; 16; 23; 4; 11; 16; 23; 4; 11; 16; 23; 4; 11; 16; 23;
    6; 10; 15; 21; 6; 10; 15; 21; 6; 10; 15; 21; 6; 10; 15; 21 ].

Record state : Type := mkstate { sa : Z; sb : Z; sc : Z; sd : Z }.

Definition init : state :=
  mkstate 0x67452301 0xefcdab89 0x98badcfe 0x10325476.

(** One of the 64 steps on the sixteen words [M] of a block. *)
Definition step (M : list Z) (st : state) (i : nat) : state :=
  let '(mkstate a b c d) := st in
  let zi := Z.of_nat i in
  let '(f, g) :=
    if zi <? 16 then (F b c d, zi)
    else if zi <? 32 then (G b c d, (5 * zi + 1) mod 16)
    else if zi <? 48 then (H b c d, (3 * zi + 5) mod 16)
    else (I b c d, (7 * zi) mod 16) in
  let f' := add32 (add32 (add32 f a) (nth i T 0)) (nth (Z.to_nat g) M 0) in
  mkstate d (add32 b (rotl32 f' (nth i S 0))) b c.

(** Little-endian decoding and encoding of 32-bit words. *)
Fixpoint words_of_bytes (fuel : nat) (bs : list Z) : list Z :=
  match fuel with
  | O => []
  | Datatypes.S fuel' =>
      match bs with
      | b0 :: b1 :: b2 :: b3 :: rest =>
          (b0 + 2 ^ 8 * b1 + 2 ^ 16 * b2 + 2 ^ 24 * b3)
            :: words_of_bytes fuel' rest
      | _ => []
      end
  end.

Definition bytes_of_word (w : Z) : list Z :=
  [ w mod 256; (w / 2 ^ 8) mod 256; (w / 2 ^ 16) mod 256;
    (w / 2 ^ 24) mod 256 ].

Definition process_block (st : state) (block : list Z) : state :=
  let M := words_of_bytes 16 block in
  let st' := fold_left (step M) (seq 0 64) st in
  mkstate (add32 (sa st) (sa st')) (add32 (sb st) (sb st'))
          (add32 (sc st) (sc st')) (add32 (sd st) (sd st')).

(** Padding: a 1 bit, zeros up to 56 modulo 64, then the bit length of the
    message as a 64-bit little-endian integer. *)
Definition pad (msg : list Z) : list Z :=
  let len := Z.of_nat (List.length msg) in
  let zeros := Z.to_nat ((55 - len) mod 64) in
  let bits := (8 * len) mod 2 ^ 64 in
  msg ++ [0x80] ++ repeat 0 zeros
      ++ bytes_of_word (bits mod 2 ^ 32) ++ bytes_of_word (bits / 2 ^ 32).

Fixpoint blocks (fuel : nat) (bs : list Z) : list (list Z) :=
  match fuel with
  | O => []
  | Datatypes.S fuel' =>
      match bs with
      | [] => []
      | _ => firstn 64 bs :: blocks fuel' (skipn 64 bs)
      end
  end.

Definition byte_of_Z (z : Z) : byte :=
  match Byte.of_N (Z.to_N z) with
  | Some b => b
  | None => x00
  end.

Definition Z_of_byte (b : byte) : Z := Z.of_N (Byte.to_N b).

(** The digest of a whole message. *)
Definition md5_digest (msg : list byte) : list byte :=
  let padded := pad (map Z_of_byte msg) in
  let st := fold_left process_block (blocks (List.length padded) padded) init in
  map byte_of_Z
      (bytes_of_word (sa st) ++ bytes_of_word (sb st)
         ++ bytes_of_word (sc st) ++ bytes_of_word (sd st)).

(** A hash object holds the bytes fed to it so far: [md5()] is empty and
    [m.update(data)] appends. *)
Definition md5 : list byte := [].

Definition update (m : list byte) (data : list byte) : list byte := m ++ data.

Definition hex_char (n : Z) : ascii :=
  nth (Z.to_nat n)
      (list_ascii_of_string "0123456789abcdef"%string) "0"%char.

(** [m.hexdigest()]: two lower-case hexadecimal digits per byte. *)
Fixpoint hex_of_bytes (bs : list byte) : string :=
  match bs with
  | [] => EmptyString
  | b :: rest =>
      String (hex_char (Z_of_byte b / 16))
             (String (hex_char (Z_of_byte b mod 16)) (hex_of_bytes rest))
  end.

Definition hexdigest (m : list byte) : string :=
  hex_of_bytes (md5_digest m).

End hashlib.

(** ** Built-ins: int(s, 16), numbers, random.uniform *)

Module builtins.

(** [s.encode()]: the UTF-8 bytes of [s], which represent it. *)
Definition encode (s : string) : list byte := list_byte_of_string s.

Definition hex_value (c : ascii) : option Z :=
  let n := Z.of_N (N_of_ascii c) in
  if (48 <=? n) && (n <=? 57) then Some (n - 48)
  else if (97 <=? n) && (n <=? 102) then Some (n - 87)
  else if (65 <=? n) && (n <=? 70) then Some (n - 55)
  else None.

Fixpoint int16_digits (acc : Z) (s : string) : result Z :=
  match s with
  | EmptyString => Return acc
  | String c s' =>
      match hex_value c with
      | Some d => int16_digits (16 * acc + d) s'
      | None => Raise ValueError
      end
  end.

(** [int(s, 16)] on a run of hexadecimal digits, the form [hexdigest]
    produces.  The empty string and any other character raise ValueError
    (Python also accepts a sign, a [0x] prefix, underscores and surrounding
    blanks, none of which a digest contains). *)
Definition int16 (s : string) : result Z :=
  match s with
  | EmptyString => Raise ValueError
  | _ => int16_digits 0 s
  end.

(** *** float: IEEE 754 binary64 *)

Definition prec : Z := 53.
Definition emax : Z := 1024.

Definition float_add : spec_float -> spec_float -> spec_float :=
  SFadd prec emax.
Definition float_mul : spec_float -> spec_float -> spec_float :=
  SFmul prec emax.

(** [float(z)]: round to nearest, ties to even; a value beyond the largest
    finite float raises OverflowError. *)
Definition float_of_int (z : Z) : result spec_float :=
  match binary_normalize prec emax z 0 false with
  | S754_infinity _ => Raise OverflowError
  | f => Return f
  end.

(** Exact comparison of an int with a float, as Python's
    [float_richcompare] does it (no conversion of the int). *)
Definition int_float_compare (z : Z) (f : spec_float) : option comparison :=
  match f with
  | S754_nan => None
  | S754_infinity s => Some (if s then Gt else Lt)
  | S754_zero _ => Some (z ?= 0)
  | S754_finite s m e =>
      let v := cond_Zopp s (Zpos m) in
      Some (if 0 <=? e then z ?= v * 2 ^ e else z * 2 ^ (- e) ?= v)
  end.

(** *** Numbers: int or float *)

Inductive pynum : Type :=
| PyInt (z : Z)
| PyFloat (f : spec_float).

Definition to_float (x : pynum) : result spec_float :=
  match x with
  | PyInt z => float_of_int z
  | PyFloat f => Return f
  end.

(** [x + y] *)
Definition add (x y : pynum) : result pynum :=
  match x, y with
  | PyInt a, PyInt b => Return (PyInt (a + b))
  | _, _ =>
      fx <- to_float x ;;
      fy <- to_float y ;;
      Return (PyFloat (float_add fx fy))
  end.

(** [x * y] *)
Definition mul (x y : pynum) : result pynum :=
  match x, y with
  | PyInt a, PyInt b => Return (PyInt (a * b))
  | _, _ =>
      fx <- to_float x ;;
      fy <- to_float y ;;
      Return (PyFloat (float_mul fx fy))
  end.

(** [x <= y] *)
Definition le (x y : pynum) : bool :=
  match x, y with
  | PyInt a, PyInt b => a <=? b
  | PyFloat f, PyFloat g => SFleb f g
  | PyInt a, PyFloat g =>
      match int_float_compare a g with
      | Some Lt | Some Eq => true
      | _ => false
      end
  | PyFloat f, PyInt b =>
      match int_float_compare b f with
      | Some Gt | Some Eq => true
      | _ => false
      end
  end.

(** *** random *)

(** [random.random()]: the generator draws 53 random bits [k] and returns
    the float [k / 2^53], a value of [0.0, 1.0). *)
Definition random (k : Z) : spec_float :=
  binary_normalize prec emax k (- 53) false.

(** [random.uniform(a, b)] is [a + (b - a) * self.random()]. *)
Definition uniform (a b : Z) (k : Z) : result pynum :=
  p <- mul (PyInt (b - a)) (PyFloat (random k)) ;;
  add (PyInt a) p.

End builtins.

Import builtins.

(** ** Data supplied by the host *)

(** Modelled from the spec: the protobuf message BlockHeader (spec section 3,
    DATA MODEL), declared outside this file.  Only the fields read or written
    here appear. *)
Record BlockHeader : Type := mkBlockHeader {
  block_num : Z;
  previous_block_id : string;
  signer_pubkey : string;
  consensus : list byte;
  state_root_hash : string
}.

(** Modelled from the spec: the block wrapper handed to the verifier and the
    fork resolver (ForkHead); it exposes its header, and the header's
    block number and state root as attributes of its own. *)
Record BlockWrapper : Type := mkBlockWrapper {
  header : BlockHeader
}.

Definition wrapper_block_num (b : BlockWrapper) : Z := block_num (header b).
Definition wrapper_state_root_hash (b : BlockWrapper) : string :=
  state_root_hash (header b).

(** Modelled from the spec: the state view and the settings accessor
    (spec section 6): [getSetting(key, default, type)] returns the stored
    value of the requested type, and [default] when the entry is missing or
    malformed.  A view is read through one lookup per requested type, which
    answers [None] for a missing or malformed entry. *)
Record StateView : Type := mkStateView {
  setting_int : string -> option Z;
  setting_list : string -> option (list string)
}.

Definition ConfigView (state_view : StateView) : StateView := state_view.

Definition get_setting {A : Type} (lookup : string -> option A)
    (key : string) (default_value : A) : A :=
  match lookup key with
  | Some v => v
  | None => default_value
  end.

(** Modelled from the spec: the block cache exposes, through its block
    store, the current chain head, absent before genesis; the state view
    factory maps a state root to a read-only view. *)
Record BlockStore : Type := mkBlockStore {
  chain_head : option BlockWrapper
}.

Record BlockCache : Type := mkBlockCache {
  block_store : BlockStore
}.

Record StateViewFactory : Type := mkStateViewFactory {
  create_view : string -> StateView
}.

(** ** ForkResolver *)

Module ForkResolver.

Definition hash_signer_pubkey (signer_pubkey header_signature : string)
    : result Z :=
  let m := hashlib.md5 in
  let m := hashlib.update m (encode signer_pubkey) in
  let m := hashlib.update m (encode header_signature) in
  let digest := hashlib.hexdigest m in
  let number := int16 digest in
  number.

Definition compare_forks (cur_fork_head new_fork_head : BlockWrapper)
    : result bool :=
  if wrapper_block_num new_fork_head =? wrapper_block_num cur_fork_head then
    cur_fork_hash <- hash_signer_pubkey
                       (signer_pubkey (header cur_fork_head))
                       (previous_block_id (header cur_fork_head)) ;;
    new_fork_hash <- hash_signer_pubkey
                       (signer_pubkey (header new_fork_head))
                       (previous_block_id (header new_fork_head)) ;;
    Return (new_fork_hash <? cur_fork_hash)
  else
    Return (wrapper_block_num new_fork_head >? wrapper_block_num cur_fork_head).

End ForkResolver.

(** ** BlockVerifier *)

Definition Devmode : list byte := list_byte_of_string "Devmode"%string.

Fixpoint bytes_eqb (a b : list byte) : bool :=
  match a, b with
  | [], [] => true
  | x :: a', y :: b' => Byte.eqb x y && bytes_eqb a' b'
  | _, _ => false
  end.

Module BlockVerifier.

Definition verify_block (block_wrapper : BlockWrapper) : bool :=
  bytes_eqb (consensus (header block_wrapper)) Devmode.

End BlockVerifier.

(** ** BlockPublisher *)

Module BlockPublisher.

Record t : Type := mk {
  _block_cache : BlockCache;
  _state_view_factory : StateViewFactory;
  _start_time : pynum;
  _wait_time : pynum;
  _min_wait_time : Z;
  _max_wait_time : Z;
  _valid_block_publishers : option (list string)
}.

Definition __init__ {BatchPublisher : Type} (block_cache : BlockCache)
    (state_view_factory : StateViewFactory) (batch_publisher : BatchPublisher)
    (data_dir : string) : t :=
  {| _block_cache := block_cache;
     _state_view_factory := state_view_factory;
     _start_time := PyInt 0;
     _wait_time := PyInt 0;
     _min_wait_time := 0;
     _max_wait_time := 0;
     _valid_block_publishers := None |}.

Definition set_consensus (h : BlockHeader) (c : list byte) : BlockHeader :=
  {| block_num := block_num h;
     previous_block_id := previous_block_id h;
     signer_pubkey := signer_pubkey h;
     consensus := c;
     state_root_hash := state_root_hash h |}.

(** [initialize_block self block_header], with [now] the value of
    [time.time()] and [k] the bits drawn by [random.random()].  Returns the
    publisher and the header as the call leaves them, and its result. *)
Definition initialize_block (self : t) (block_header : BlockHeader)
    (now : spec_float) (k : Z) : t * BlockHeader * result bool :=
  let state_root_hash :=
    match chain_head (block_store (_block_cache self)) with
    | Some head => wrapper_state_root_hash head
    | None => state_root_hash block_header
    end in
  let state_view := create_view (_state_view_factory self) state_root_hash in
  let config_view := ConfigView state_view in
  let min_wait_time :=
    get_setting (setting_int config_view)
      "sawtooth.consensus.min_wait_time" (_min_wait_time self) in
  let max_wait_time :=
    get_setting (setting_int config_view)
      "sawtooth.consensus.max_wait_time" (_max_wait_time self) in
  let valid_block_publishers :=
    get_setting
      (fun key => option_map Some (setting_list config_view key))
      "sawtooth.consensus.valid_block_publishers"
      (_valid_block_publishers self) in
  let block_header := set_consensus block_header Devmode in
  let self :=
    {| _block_cache := _block_cache self;
       _state_view_factory := _state_view_factory self;
       _start_time := PyFloat now;
       _wait_time := _wait_time self;
       _min_wait_time := min_wait_time;
       _max_wait_time := max_wait_time;
       _valid_block_publishers := valid_block_publishers |} in
  match uniform min_wait_time max_wait_time k with
  | Raise e => (self, block_header, Raise e)
  | Return w =>
      ({| _block_cache := _block_cache self;
          _state_view_factory := _state_view_factory self;
          _start_time := _start_time self;
          _wait_time := w;
          _min_wait_time := _min_wait_time self;
          _max_wait_time := _max_wait_time self;
          _valid_block_publishers := _valid_block_publishers self |},
       block_header, Return true)
  end.

(** Truth value of [self._valid_block_publishers]: None and the empty list
    are false. *)
Definition truthy (l : option (list string)) : bool :=
  match l with
  | Some (_ :: _) => true
  | _ => false
  end.

(** [x in l] *)
Definition contains (l : option (list string)) (x : string) : bool :=
  match l with
  | Some l => existsb (String.eqb x) l
  | None => false
  end.

(** [check_publish_block self block_header], with [now] the value
    [time.time()] returns when it is called.  The method leaves [self]
    unchanged; [Return None] is the call falling off the end of the
    function. *)
Definition check_publish_block (self : t) (block_header : BlockHeader)
    (now : spec_float) : result (option bool) :=
  if truthy (_valid_block_publishers self)
     && negb (contains (_valid_block_publishers self)
                       (signer_pubkey block_header))
  then Return (Some false)
  else if _min_wait_time self =? 0 then Return (Some true)
  else if (_min_wait_time self >? 0) && (_max_wait_time self <=? 0) then
    deadline <- add (_start_time self) (PyInt (_min_wait_time self)) ;;
    if le deadline (PyFloat now) then Return (Some true) else Return None
  else if (_min_wait_time self >? 0)
          && (_max_wait_time self >? _min_wait_time self) then
    deadline <- add (_start_time self) (_wait_time self) ;;
    if le deadline (PyFloat now) then Return (Some true) else Return None
  else Return (Some false).

Definition finalize_block (self : t) (block_header : BlockHeader) : bool :=
  true.

End BlockPublisher.

(** ** Vocabulary of the properties *)

(** Bytes read as an unsigned integer, most significant byte first. *)
Definition unsigned_be (bs : list byte) (acc : Z) : Z :=
  fold_left (fun a b => 256 * a + hashlib.Z_of_byte b) bs acc.

(** md5(signer_pubkey || previous_block_id) as an unsigned integer. *)
Definition tie_break (h : BlockHeader) : Z :=
  unsigned_be
    (hashlib.md5_digest (encode (signer_pubkey h)
                   ++ encode (previous_block_id h))) 0.

(** The publisher and the header as [initialize_block] leaves them. *)
Definition initialized (self : BlockPublisher.t) (h : BlockHeader)
    (now : spec_float) (k : Z) : BlockPublisher.t :=
  fst (fst (BlockPublisher.initialize_block self h now k)).

Definition stamped (self : BlockPublisher.t) (h : BlockHeader)
    (now : spec_float) (k : Z) : BlockHeader :=
  snd (fst (BlockPublisher.initialize_block self h now k)).

(** The calls a host makes on a publisher, and the publisher each leaves:
    [initialize_block] assigns the attributes as above;
    [check_publish_block] and [finalize_block] assign none. *)
Inductive call : Type :=
| Initialize (h : BlockHeader) (now : spec_float) (k : Z)
| CheckPublish (h : BlockHeader) (now : spec_float)
| Finalize (h : BlockHeader).

Definition after (self : BlockPublisher.t) (c : call) : BlockPublisher.t :=
  match c with
  | Initialize h now k => initialized self h now k
  | CheckPublish _ _ => self
  | Finalize _ => self
  end.

(** [random.random()] draws 53 bits. *)
Definition draw_valid (c : call) : Prop :=
  match c with
  | Initialize _ _ k => 0 <= k < 2 ^ 53
  | _ => True
  end.

(** A signer is permitted when the list of valid publishers is unset, empty,
    or contains it. *)
Definition permitted (publishers : option (list string)) (signer : string)
    : Prop :=
  forall l, publishers = Some l -> l <> [] -> In signer l.

(** A host whose state view holds the given settings, a fresh publisher on
    it, and a candidate header signed by [signer]. *)
Definition example_view (min_wait max_wait : option Z)
    (publishers : option (list string)) : StateView :=
  {| setting_int := fun key =>
       if (key =? "sawtooth.consensus.min_wait_time")%string then min_wait
       else if (key =? "sawtooth.consensus.max_wait_time")%string then max_wait
       else None;
     setting_list := fun key =>
       if (key =? "sawtooth.consensus.valid_block_publishers")%string
       then publishers else None |}.

Definition example_publisher (min_wait max_wait : option Z)
    (publishers : option (list string)) : BlockPublisher.t :=
  BlockPublisher.__init__ (mkBlockCache (mkBlockStore None))
           (mkStateViewFactory
              (fun _ => example_view min_wait max_wait publishers))
           tt "data"%string.

Definition example_header (signer : string) : BlockHeader :=
  {| block_num := 10;
     previous_block_id := "0000000000000000";
     signer_pubkey := signer;
     consensus := [];
     state_root_hash := "state-root" |}.

(** The float of a whole number of seconds. *)
Definition seconds (n : Z) : spec_float := binary_normalize prec emax n 0 false.

(** Exact comparisons of a dyadic number [m * 2^e] with an integer [n],
    stated on integers by clearing the negative exponent; they are the two
    tests [int_float_compare] makes. *)
Definition dyadic_le_int (m e n : Z) : Prop :=
  m * 2 ^ Z.max e 0 <= n * 2 ^ Z.max (- e) 0.

Definition int_le_dyadic (n m e : Z) : Prop :=
  n * 2 ^ Z.max (- e) 0 <= m * 2 ^ Z.max e 0.

(** A float that is zero, or positive and finite, with [lo <= f <= hi]. *)
Definition float_between (lo hi : Z) (f : spec_float) : Prop :=
  match f with
  | S754_zero _ => lo <= 0 <= hi
  | S754_finite false m e =>
      int_le_dyadic lo (Zpos m) e /\ dyadic_le_int (Zpos m) e hi
  | _ => False
  end.

(** What [n] right shifts of [(m0, false, false)] leave: the quotient, and
    no round or sticky bit when the division is exact. *)
Definition shifted (m0 n : Z) (mrs : shr_record) : Prop :=
  shr_m mrs = m0 / 2 ^ n
  /\ (m0 mod 2 ^ n = 0 -> shr_r mrs = false /\ shr_s mrs = false).

(** * Properties *)

(** ** Rounding of binary64 floats *)

Lemma pow2_pos (n : Z) : 0 <= n -> 0 < 2 ^ n.
Proof. intros. apply Z.pow_pos_nonneg; lia. Qed.

Lemma pow2_split (a b : Z) : 0 <= a -> 0 <= b -> 2 ^ (a + b) = 2 ^ a * 2 ^ b.
Proof. intros. apply Z.pow_add_r; assumption. Qed.

Ltac pow2_positive x :=
  assert (0 < 2 ^ x) by (apply pow2_pos; lia).

Section Scaling.

Lemma scale_le (x y p : Z) : 0 < p -> (x * p <= y * p <-> x <= y).
Proof. intros. split; intros; nia. Qed.

(** Both comparisons may be read at any common scale [2^c] that clears the
    exponent. *)
Lemma dyadic_le_int_scale (m e n c : Z) :
  0 <= c -> 0 <= e + c ->
  (dyadic_le_int m e n <-> m * 2 ^ (e + c) <= n * 2 ^ c).
Proof.
  intros C EC. unfold dyadic_le_int.
  remember (Z.max (- e) 0) as c0 eqn:Hc0.
  replace (Z.max e 0) with (e + c0) by lia.
  replace (e + c) with ((e + c0) + (c - c0)) by lia.
  replace c with (c0 + (c - c0)) at 2 by lia.
  rewrite (pow2_split (e + c0) (c - c0)), (pow2_split c0 (c - c0)) by lia.
  rewrite !Z.mul_assoc. symmetry. apply scale_le. apply pow2_pos. lia.
Qed.

Lemma int_le_dyadic_scale (n m e c : Z) :
  0 <= c -> 0 <= e + c ->
  (int_le_dyadic n m e <-> n * 2 ^ c <= m * 2 ^ (e + c)).
Proof.
  intros C EC. unfold int_le_dyadic.
  remember (Z.max (- e) 0) as c0 eqn:Hc0.
  replace (Z.max e 0) with (e + c0) by lia.
  replace (e + c) with ((e + c0) + (c - c0)) by lia.
  replace c with (c0 + (c - c0)) at 1 by lia.
  rewrite (pow2_split (e + c0) (c - c0)), (pow2_split c0 (c - c0)) by lia.
  rewrite !Z.mul_assoc. symmetry. apply scale_le. apply pow2_pos. lia.
Qed.

End Scaling.

Section Shifting.

Lemma digits2_pos_bounds (p : positive) :
  2 ^ (Zpos (digits2_pos p) - 1) <= Zpos p < 2 ^ Zpos (digits2_pos p).
Proof.
  induction p as [p IH | p IH |]; cbn [digits2_pos].
  - rewrite Pos2Z.inj_succ. change (Zpos p~1) with (2 * Zpos p + 1).
    replace (Z.succ (Zpos (digits2_pos p)) - 1)
      with ((Zpos (digits2_pos p) - 1) + 1) by lia.
    rewrite Z.pow_succ_r, pow2_split by lia. change (2 ^ 1) with 2. lia.
  - rewrite Pos2Z.inj_succ. change (Zpos p~0) with (2 * Zpos p).
    replace (Z.succ (Zpos (digits2_pos p)) - 1)
      with ((Zpos (digits2_pos p) - 1) + 1) by lia.
    rewrite Z.pow_succ_r, pow2_split by lia. change (2 ^ 1) with 2. lia.
  - cbn. lia.
Qed.

Lemma shr_1_fields (mrs : shr_record) :
  0 <= shr_m mrs ->
  shr_m (shr_1 mrs) = shr_m mrs / 2
  /\ shr_r (shr_1 mrs) = Z.odd (shr_m mrs)
  /\ shr_s (shr_1 mrs) = shr_r mrs || shr_s mrs.
Proof.
  destruct mrs as [m r s]. cbn [shr_m shr_r shr_s]. intros M.
  rewrite <- Z.div2_div.
  destruct m as [|[p|p|]|]; try lia; cbn; auto.
Qed.

Lemma shifted_step (m0 n : Z) (mrs : shr_record) :
  0 <= m0 -> 0 <= n ->
  shifted m0 n mrs -> shifted m0 (n + 1) (shr_1 mrs).
Proof.
  intros M N [Q X].
  assert (P : 0 < 2 ^ n) by (apply pow2_pos; lia).
  assert (Q0 : 0 <= shr_m mrs) by (rewrite Q; apply Z.div_pos; lia).
  destruct (shr_1_fields mrs Q0) as (F1 & F2 & F3).
  unfold shifted. rewrite pow2_split by lia. change (2 ^ 1) with 2.
  split.
  - rewrite F1, Q, Z.div_div by lia. reflexivity.
  - intros R. rewrite Z.rem_mul_r in R by lia.
    pose proof (Z.mod_pos_bound m0 (2 ^ n) P).
    pose proof (Z.mod_pos_bound (m0 / 2 ^ n) 2 ltac:(lia)).
    assert (R1 : m0 mod 2 ^ n = 0) by nia.
    assert (R2 : (m0 / 2 ^ n) mod 2 = 0) by nia.
    destruct (X R1) as [Xr Xs]. rewrite F2, F3, Xr, Xs, Q. split; [|reflexivity].
    rewrite Z.mod_divide in R2 by lia.
    rewrite <- Z.negb_even. apply negb_false_iff, Z.even_spec.
    destruct R2 as [t ->]. exists t. lia.
Qed.

Lemma shifted_iter (m0 : Z) (p : positive) :
  0 <= m0 ->
  forall (n : Z) (mrs : shr_record),
    0 <= n -> shifted m0 n mrs ->
    shifted m0 (n + Zpos p) (iter_pos shr_1 p mrs).
Proof.
  intros M. induction p as [p IH | p IH |]; intros n mrs N S; cbn [iter_pos].
  - replace (n + Zpos p~1) with (((n + 1) + Zpos p) + Zpos p) by lia.
    apply IH; [lia|]. apply IH; [lia|]. apply shifted_step; assumption.
  - replace (n + Zpos p~0) with ((n + Zpos p) + Zpos p) by lia.
    apply IH; [lia|]. apply IH; assumption.
  - apply shifted_step; assumption.
Qed.

(** [shr] from an exact location, by any amount. *)
Lemma shr_exact (m e n : Z) :
  0 <= m ->
  snd (shr (Build_shr_record m false false) e n) = e + Z.max n 0
  /\ shifted m (Z.max n 0) (fst (shr (Build_shr_record m false false) e n)).
Proof.
  intros M.
  assert (S0 : shifted m 0 (Build_shr_record m false false)).
  { split; cbn; [rewrite Z.div_1_r; reflexivity | auto]. }
  destruct n as [|p|p]; cbn [shr fst snd].
  - change (Z.max 0 0) with 0. split; [lia | exact S0].
  - rewrite Z.max_l by lia. split; [reflexivity|].
    apply (shifted_iter m p M 0 _ ltac:(lia) S0).
  - rewrite Z.max_r by lia. split; [lia | exact S0].
Qed.

Lemma round_nearest_even_cases (mrs : shr_record) :
  let q := round_nearest_even (shr_m mrs) (loc_of_shr_record mrs) in
  q = shr_m mrs
  \/ (q = shr_m mrs + 1 /\ (shr_r mrs = true \/ shr_s mrs = true)).
Proof.
  destruct mrs as [m [|] [|]]; cbn; auto.
  destruct (Z.even m); auto.
Qed.

End Shifting.

Section Floor.

(** The quotient of a right shift stays above an integer bound [lo] that the
    shifted exponent represents (or that the quotient clears anyway). *)
Lemma floor_lower (m e s lo : Z) :
  0 <= m -> 0 <= s ->
  int_le_dyadic lo m e ->
  s = 0 \/ e + s <= 0 \/ (lo <= 2 ^ 53 /\ 2 ^ 52 <= m / 2 ^ s /\ 1 <= e + s) ->
  int_le_dyadic lo (m / 2 ^ s) (e + s).
Proof.
  intros M S L [Z | [E | (B & Q & E)]].
  - subst s. rewrite Z.add_0_r. change (2 ^ 0) with 1. rewrite Z.div_1_r.
    exact L.
  - apply (int_le_dyadic_scale lo m e (- e)) in L; [|lia|lia].
    apply (int_le_dyadic_scale lo _ (e + s) (- e)); [lia|lia|].
    replace (e + - e) with 0 in L by lia. change (2 ^ 0) with 1 in L.
    replace (e + s + - e) with s by lia.
    replace (- e) with ((- e - s) + s) in * by lia.
    rewrite pow2_split in * by lia.
    assert (P : 0 < 2 ^ s) by (apply pow2_pos; lia).
    assert (lo * 2 ^ (- e - s) <= m / 2 ^ s).
    { apply Z.div_le_lower_bound; [exact P | lia]. }
    nia.
  - apply (int_le_dyadic_scale lo _ (e + s) 0); [lia|lia|].
    rewrite Z.add_0_r. change (2 ^ 0) with 1.
    replace (e + s) with (1 + (e + s - 1)) by lia.
    rewrite pow2_split by lia. change (2 ^ 1) with 2.
    assert (P : 0 < 2 ^ (e + s - 1)) by (apply pow2_pos; lia).
    change (2 ^ 53) with (2 ^ 52 * 2) in B. nia.
Qed.

(** The quotient, or its successor when the division is not exact, stays
    below an integer bound [hi] under the same condition. *)
Lemma floor_upper (m e s hi q' : Z) :
  0 <= m -> 0 <= s ->
  dyadic_le_int m e hi ->
  q' = m / 2 ^ s \/ (q' = m / 2 ^ s + 1 /\ m mod 2 ^ s <> 0) ->
  s = 0 \/ e + s <= 0 \/ (hi <= 2 ^ 53 /\ 2 ^ 52 <= m / 2 ^ s /\ 1 <= e + s) ->
  dyadic_le_int q' (e + s) hi.
Proof.
  intros M S L Q' C.
  assert (P : 0 < 2 ^ s) by (apply pow2_pos; lia).
  pose proof (Z.div_mod m (2 ^ s) ltac:(lia)) as DM.
  pose proof (Z.mod_pos_bound m (2 ^ s) P) as MB.
  remember (Z.max (- e) 0) as c eqn:Hc.
  apply (dyadic_le_int_scale m e hi c) in L; [|lia|lia].
  apply (dyadic_le_int_scale q' (e + s) hi c); [lia|lia|].
  replace (e + s + c) with (s + (e + c)) by lia.
  rewrite pow2_split by lia.
  assert (P1 : 0 < 2 ^ (e + c)) by (apply pow2_pos; lia).
  assert (P2 : 0 < 2 ^ c) by (apply pow2_pos; lia).
  destruct Q' as [-> | [-> R]].
  - assert (m / 2 ^ s * 2 ^ s <= m) by lia.
    assert (m / 2 ^ s * 2 ^ s * 2 ^ (e + c) <= m * 2 ^ (e + c)) by nia.
    lia.
  - destruct C as [Z | [E | (B & Q & E)]].
    + exfalso. subst s. apply R. change (2 ^ 0) with 1. apply Z.mod_1_r.
    + assert (c = - e) by lia. clear Hc. subst c.
      replace (e + - e) with 0 in * by lia. change (2 ^ 0) with 1 in *.
      replace (- e) with ((- e - s) + s) in * by lia.
      rewrite pow2_split in * by lia.
      assert (P3 : 0 < 2 ^ (- e - s)) by (apply pow2_pos; lia).
      assert (m / 2 ^ s < hi * 2 ^ (- e - s)) by nia.
      nia.
    + exfalso.
      assert (m / 2 ^ s * 2 ^ s < m) by lia.
      assert (m / 2 ^ s * 2 ^ s * 2 ^ (e + c) < hi * 2 ^ c) by nia.
      assert (X : 2 ^ s * 2 ^ (e + c) = 2 ^ (e + s - 1) * 2 * 2 ^ c).
      { rewrite <- !pow2_split by lia. change 2 with (2 ^ 1) at 3.
        rewrite <- !pow2_split by lia. f_equal. lia. }
      assert (P3 : 0 < 2 ^ (e + s - 1)) by (apply pow2_pos; lia).
      change (2 ^ 53) with (2 ^ 52 * 2) in B.
      assert (2 ^ 52 * 2 * 2 ^ c <= m / 2 ^ s * (2 ^ s * 2 ^ (e + c))).
      { rewrite X. nia. }
      nia.
Qed.

Lemma fexp_binary64 (x : Z) : fexp prec emax x = Z.max (x - 53) (- 1074).
Proof. reflexivity. Qed.

(** The shift [shr_fexp] makes meets the condition of the two lemmas. *)
Lemma fexp_shift_condition (m e : Z)
    (s := Z.max (fexp prec emax (Zdigits2 m + e) - e) 0) :
  0 <= m ->
  s = 0 \/ e + s <= 0 \/ (2 ^ 52 <= m / 2 ^ s /\ 1 <= e + s).
Proof.
  intros M. subst s. rewrite fexp_binary64.
  destruct (Z.leb_spec (Z.max (Zdigits2 m + e - 53) (- 1074) - e) 0) as [N|N].
  { left. lia. }
  rewrite Z.max_l by lia.
  destruct (Z.leb_spec (e + (Z.max (Zdigits2 m + e - 53) (- 1074) - e)) 0) as [E|E].
  { right. left. exact E. }
  right. right. split; [|lia].
  destruct m as [|p|p]; [cbn in *; lia | | lia].
  cbn [Zdigits2] in *.
  rewrite Z.max_l in * by lia.
  replace (Zpos (digits2_pos p) + e - 53 - e) with (Zpos (digits2_pos p) - 53) by lia.
  pose proof (digits2_pos_bounds p) as [D _].
  apply Z.div_le_lower_bound; [apply pow2_pos; lia|].
  rewrite <- pow2_split by lia.
  replace (Zpos (digits2_pos p) - 53 + 52) with (Zpos (digits2_pos p) - 1) by lia.
  exact D.
Qed.

End Floor.

Section Rounding.

Lemma int_le_dyadic_mono (lo m m' e : Z) :
  m <= m' -> int_le_dyadic lo m e -> int_le_dyadic lo m' e.
Proof.
  unfold int_le_dyadic. intros L H.
  pow2_positive (Z.max e 0). nia.
Qed.

Lemma dyadic_le_int_mono (hi m m' e : Z) :
  m <= m' -> dyadic_le_int m' e hi -> dyadic_le_int m e hi.
Proof.
  unfold dyadic_le_int. intros L H.
  pow2_positive (Z.max e 0). nia.
Qed.

(** One [shr_fexp] from an exact location, followed by rounding to nearest
    even: the truncated mantissa stays above [lo] and the rounded one below
    [hi], for integer bounds up to 2^53. *)
Lemma shr_fexp_bounds (m e lo hi : Z) (mrs : shr_record) (e1 : Z) :
  0 <= m -> lo <= 2 ^ 53 -> hi <= 2 ^ 53 ->
  int_le_dyadic lo m e -> dyadic_le_int m e hi ->
  shr_fexp prec emax m e loc_Exact = (mrs, e1) ->
  0 <= shr_m mrs <= round_nearest_even (shr_m mrs) (loc_of_shr_record mrs)
  /\ int_le_dyadic lo (shr_m mrs) e1
  /\ dyadic_le_int (round_nearest_even (shr_m mrs) (loc_of_shr_record mrs)) e1 hi.
Proof.
  intros M Lo Hi L H E.
  unfold shr_fexp in E. cbn [shr_record_of_loc] in E.
  pose proof (shr_exact m e (fexp prec emax (Zdigits2 m + e) - e) M) as [E1 [Q X]].
  pose proof (fexp_shift_condition m e M) as C. cbn zeta in C.
  rewrite E in E1, Q, X. cbn [fst snd] in E1, Q, X.
  remember (Z.max (fexp prec emax (Zdigits2 m + e) - e) 0) as s eqn:Hs.
  assert (S : 0 <= s) by lia.
  assert (P : 0 < 2 ^ s) by (apply pow2_pos; lia).
  assert (Q0 : 0 <= shr_m mrs) by (rewrite Q; apply Z.div_pos; lia).
  pose proof (round_nearest_even_cases mrs) as R. cbn zeta in R.
  subst e1. split; [|split].
  - destruct R as [-> | [-> _]]; lia.
  - rewrite Q. apply floor_lower; try assumption. tauto.
  - apply (floor_upper m e s hi); try assumption; [|tauto].
    rewrite <- Q. destruct R as [R | [R B]]; [left; exact R | right].
    split; [exact R|]. intros Z. destruct (X Z) as [Xr Xs].
    rewrite Xr, Xs in B. destruct B; discriminate.
Qed.

End Rounding.

Section Alignment.

Lemma iter_xO_pow2 (m d : positive) :
  Zpos (Pos.iter xO m d) = Zpos m * 2 ^ Zpos d.
Proof.
  induction d as [|d IH] using Pos.peano_ind.
  - cbn [Pos.iter]. change (2 ^ 1) with 2. lia.
  - rewrite Pos.iter_succ, Pos2Z.inj_succ, Z.pow_succ_r by lia.
    change (Zpos (Pos.iter xO m d)~0) with (2 * Zpos (Pos.iter xO m d)).
    rewrite IH. ring.
Qed.

(** Moving [d] powers of two from the exponent into the mantissa changes
    neither comparison. *)
Lemma int_le_dyadic_shift (lo m e d : Z) :
  0 <= d ->
  (int_le_dyadic lo (m * 2 ^ d) (e - d) <-> int_le_dyadic lo m e).
Proof.
  intros D. remember (Z.max (- (e - d)) 0) as c eqn:Hc.
  rewrite (int_le_dyadic_scale lo _ (e - d) c) by lia.
  rewrite (int_le_dyadic_scale lo m e c) by lia.
  replace (e + c) with (d + (e - d + c)) by lia.
  rewrite (pow2_split d) by lia. rewrite Z.mul_assoc. reflexivity.
Qed.

Lemma dyadic_le_int_shift (hi m e d : Z) :
  0 <= d ->
  (dyadic_le_int (m * 2 ^ d) (e - d) hi <-> dyadic_le_int m e hi).
Proof.
  intros D. remember (Z.max (- (e - d)) 0) as c eqn:Hc.
  rewrite (dyadic_le_int_scale _ (e - d) hi c) by lia.
  rewrite (dyadic_le_int_scale m e hi c) by lia.
  replace (e + c) with (d + (e - d + c)) by lia.
  rewrite (pow2_split d) by lia. rewrite Z.mul_assoc. reflexivity.
Qed.

(** [shl_align] keeps the value. *)
Lemma shl_align_value (m : positive) (e e' : Z) :
  exists d : Z,
    0 <= d
    /\ Zpos (fst (shl_align m e e')) = Zpos m * 2 ^ d
    /\ snd (shl_align m e e') = e - d.
Proof.
  unfold shl_align. destruct (e' - e) as [|p|p] eqn:E; cbn [fst snd].
  - exists 0. change (2 ^ 0) with 1. lia.
  - exists 0. change (2 ^ 0) with 1. lia.
  - exists (Zpos p). rewrite iter_xO_pow2. lia.
Qed.

End Alignment.

(** Rounding a value that lies between two integers [lo] and [hi] of
    [0, 2^53]. *)
Section Between.

Variables lo hi : Z.
Hypothesis lo_nonneg : 0 <= lo.
Hypothesis hi_exact : hi <= 2 ^ 53.

(** [binary_round_aux] gives a float between them: zero or positive, and
    finite. *)
Lemma binary_round_aux_between (m : positive) (e : Z) :
  int_le_dyadic lo (Zpos m) e -> dyadic_le_int (Zpos m) e hi ->
  float_between lo hi (binary_round_aux prec emax false (Zpos m) e loc_Exact).
Proof.
  intros L H.
  assert (LH : lo <= hi).
  { unfold int_le_dyadic, dyadic_le_int in *.
    pow2_positive (Z.max e 0).
    pow2_positive (Z.max (- e) 0). nia. }
  unfold binary_round_aux.
  destruct (shr_fexp prec emax (Zpos m) e loc_Exact) as [mrs1 e1] eqn:E1.
  destruct (shr_fexp_bounds (Zpos m) e lo hi mrs1 e1) as (Q1 & L1 & H1);
    try assumption; try lia.
  set (q1 := round_nearest_even (shr_m mrs1) (loc_of_shr_record mrs1)) in *.
  destruct (shr_fexp prec emax q1 e1 loc_Exact) as [mrs2 e2] eqn:E2.
  destruct (shr_fexp_bounds q1 e1 lo hi mrs2 e2) as (Q2 & L2 & H2);
    try assumption; try lia.
  { apply (int_le_dyadic_mono lo (shr_m mrs1)); [lia | exact L1]. }
  apply (dyadic_le_int_mono hi (shr_m mrs2)) in H2; [|lia].
  destruct (shr_m mrs2) as [|q|q] eqn:Q; [| |lia].
  - cbn. unfold int_le_dyadic, dyadic_le_int in *.
    pow2_positive (Z.max e2 0).
    pow2_positive (Z.max (- e2) 0). nia.
  - destruct (Z.leb_spec e2 (emax - prec)) as [B|B].
    + cbn. split; assumption.
    + exfalso. unfold emax, prec in B.
      apply (dyadic_le_int_scale (Zpos q) e2 hi 0) in H2; [|lia|lia].
      rewrite Z.add_0_r in H2. change (2 ^ 0) with 1 in H2.
      assert (2 ^ 54 <= 2 ^ e2) by (apply Z.pow_le_mono_r; lia).
      change (2 ^ 54) with (2 ^ 53 * 2) in *. nia.
Qed.

Lemma binary_round_between (m : positive) (e : Z) :
  int_le_dyadic lo (Zpos m) e -> dyadic_le_int (Zpos m) e hi ->
  float_between lo hi (binary_round prec emax false m e).
Proof.
  intros L H. unfold binary_round.
  destruct (shl_align_value m e (fexp prec emax (Zpos (digits2_pos m) + e)))
    as (d & D & M & E).
  destruct (shl_align m e _) as [mz ez]. cbn [fst snd] in M, E. subst ez.
  apply binary_round_aux_between; rewrite M.
  - apply int_le_dyadic_shift; assumption.
  - apply dyadic_le_int_shift; assumption.
Qed.

(** [binary_normalize] of a non-negative mantissa. *)
Lemma binary_normalize_between (m e : Z) (szero : bool) :
  0 <= m ->
  int_le_dyadic lo m e -> dyadic_le_int m e hi ->
  float_between lo hi (binary_normalize prec emax m e szero).
Proof.
  intros M L H. destruct m as [|p|p]; [| |lia].
  - cbn. unfold int_le_dyadic, dyadic_le_int in *.
    pow2_positive (Z.max e 0).
    pow2_positive (Z.max (- e) 0). nia.
  - apply binary_round_between; assumption.
Qed.

End Between.

(** ** Arithmetic of random.uniform *)

Section Uniform.

Lemma float_between_weaken (lo hi lo' hi' : Z) (f : spec_float) :
  lo' <= lo -> hi <= hi' ->
  float_between lo hi f -> float_between lo' hi' f.
Proof.
  intros L H. destruct f as [s| | |[|] m e]; cbn; try tauto; [lia|].
  unfold int_le_dyadic, dyadic_le_int.
  pow2_positive (Z.max (- e) 0).
  intros [A B]. split; nia.
Qed.

(** [float(n)] is exact for 0 <= n <= 2^53, and does not raise. *)
Lemma float_of_int_exact (n : Z) :
  0 <= n <= 2 ^ 53 ->
  exists f : spec_float, float_of_int n = Return f /\ float_between n n f.
Proof.
  intros N. unfold float_of_int.
  assert (B : float_between n n (binary_normalize prec emax n 0 false)).
  { apply binary_normalize_between; try lia;
      unfold int_le_dyadic, dyadic_le_int; cbn; lia. }
  destruct (binary_normalize prec emax n 0 false) as [s|s| |s m e];
    cbn in B; try contradiction; eauto.
Qed.

(** [random()] lies in [0, 1]. *)
Lemma random_between (k : Z) :
  0 <= k < 2 ^ 53 -> float_between 0 1 (random k).
Proof.
  intros K. unfold random.
  apply binary_normalize_between; try lia.
  - unfold int_le_dyadic. cbn. lia.
  - unfold dyadic_le_int. cbn. lia.
Qed.

Lemma dyadic_le_int_mul (m1 e1 n1 m2 e2 n2 : Z) :
  0 <= m1 -> 0 <= m2 -> 0 <= n1 -> 0 <= n2 ->
  dyadic_le_int m1 e1 n1 -> dyadic_le_int m2 e2 n2 ->
  dyadic_le_int (m1 * m2) (e1 + e2) (n1 * n2).
Proof.
  intros M1 M2 N1 N2 H1 H2.
  remember (Z.max (- e1) 0) as c1 eqn:Hc1.
  remember (Z.max (- e2) 0) as c2 eqn:Hc2.
  apply (dyadic_le_int_scale m1 e1 n1 c1) in H1; [|lia|lia].
  apply (dyadic_le_int_scale m2 e2 n2 c2) in H2; [|lia|lia].
  apply (dyadic_le_int_scale _ (e1 + e2) _ (c1 + c2)); [lia|lia|].
  replace (e1 + e2 + (c1 + c2)) with ((e1 + c1) + (e2 + c2)) by lia.
  rewrite (pow2_split (e1 + c1)), (pow2_split c1) by lia.
  pow2_positive (e1 + c1).
  pow2_positive (e2 + c2).
  pow2_positive c1.
  pow2_positive c2.
  transitivity ((n1 * 2 ^ c1) * (m2 * 2 ^ (e2 + c2))); nia.
Qed.

(** The product of a float in [0, d] by a float in [0, 1] is in [0, d]. *)
Lemma float_mul_between (d : Z) (x y : spec_float) :
  0 <= d <= 2 ^ 53 ->
  float_between 0 d x -> float_between 0 1 y ->
  float_between 0 d (float_mul x y).
Proof.
  intros D X Y. unfold float_mul.
  destruct x as [sx| | |[|] mx ex]; cbn in X; try contradiction;
    destruct y as [sy| | |[|] my ey]; cbn in Y; try contradiction;
    cbn [SFmul xorb]; try (cbn; lia).
  destruct X as [_ X], Y as [_ Y].
  apply binary_round_aux_between; try lia.
  - unfold int_le_dyadic.
    pow2_positive (Z.max (ex + ey) 0). nia.
  - replace d with (d * 1) by lia.
    change (Zpos (mx * my)) with (Zpos mx * Zpos my).
    apply dyadic_le_int_mul; try lia; assumption.
Qed.

Lemma dyadic_le_int_add (m1 m2 e n1 n2 : Z) :
  dyadic_le_int m1 e n1 -> dyadic_le_int m2 e n2 ->
  dyadic_le_int (m1 + m2) e (n1 + n2).
Proof. unfold dyadic_le_int. nia. Qed.

(** The sum of the float of the integer [a] and a float in [0, d] is in
    [a, a + d]. *)
Lemma float_add_between (a d : Z) (x y : spec_float) :
  0 <= a -> a + d <= 2 ^ 53 ->
  float_between a a x -> float_between 0 d y ->
  float_between a (a + d) (float_add x y).
Proof.
  intros A AD X Y. unfold float_add.
  assert (D : 0 <= d).
  { destruct y as [sy| | |[|] my ey]; cbn in Y; try contradiction; [lia|].
    destruct Y as [_ Y]. unfold dyadic_le_int in Y.
    pow2_positive (Z.max ey 0).
    pow2_positive (Z.max (- ey) 0). nia. }
  destruct x as [sx| | |[|] mx ex]; try (cbn in X; contradiction);
    destruct y as [sy| | |[|] my ey]; try (cbn in Y; contradiction).
  - cbn in X. assert (a = 0) by lia. subst a.
    destruct sx, sy; cbn; lia.
  - cbn in X. assert (a = 0) by lia. subst a. exact Y.
  - apply (float_between_weaken a a); [lia | lia | exact X].
  - cbn [SFadd cond_Zopp].
    destruct (shl_align_value mx ex (Z.min ex ey)) as (dx & Dx & Mx & Ex).
    destruct (shl_align_value my ey (Z.min ex ey)) as (dy & Dy & My & Ey).
    assert (Sx : ex - dx = Z.min ex ey).
    { rewrite <- Ex. unfold shl_align.
      destruct (Z.min ex ey - ex) eqn:E; cbn [snd]; lia. }
    assert (Sy : ey - dy = Z.min ex ey).
    { rewrite <- Ey. unfold shl_align.
      destruct (Z.min ex ey - ey) eqn:E; cbn [snd]; lia. }
    destruct X as [Xl Xh], Y as [_ Yh].
    apply (int_le_dyadic_shift a _ ex dx Dx) in Xl.
    apply (dyadic_le_int_shift a _ ex dx Dx) in Xh.
    apply (dyadic_le_int_shift d _ ey dy Dy) in Yh.
    rewrite <- Mx, Sx in Xl, Xh. rewrite <- My, Sy in Yh.
    apply binary_normalize_between; try lia.
    + apply (int_le_dyadic_mono a (Zpos (fst (shl_align mx ex (Z.min ex ey)))));
        [lia | exact Xl].
    + apply dyadic_le_int_add; assumption.
Qed.

(** The model's comparisons decide [float_between]. *)
Lemma le_of_float_between (lo hi : Z) (f : spec_float) :
  float_between lo hi f ->
  le (PyInt lo) (PyFloat f) = true /\ le (PyFloat f) (PyInt hi) = true.
Proof.
  destruct f as [s| | |[|] m e]; cbn [float_between le int_float_compare cond_Zopp];
    try contradiction.
  - intros [L H]. split.
    + destruct (Z.compare_spec lo 0); try reflexivity; lia.
    + destruct (Z.compare_spec hi 0); try reflexivity; lia.
  - unfold int_le_dyadic, dyadic_le_int. intros [L H].
    destruct (Z.leb_spec 0 e) as [E|E].
    + rewrite (Z.max_l e 0), (Z.max_r (- e) 0) in L, H by lia.
      change (2 ^ 0) with 1 in L, H. split.
      * destruct (Z.compare_spec lo (Zpos m * 2 ^ e)); try reflexivity; lia.
      * destruct (Z.compare_spec hi (Zpos m * 2 ^ e)); try reflexivity; lia.
    + rewrite (Z.max_r e 0), (Z.max_l (- e) 0) in L, H by lia.
      change (2 ^ 0) with 1 in L, H. split.
      * destruct (Z.compare_spec (lo * 2 ^ (- e)) (Zpos m)); try reflexivity; lia.
      * destruct (Z.compare_spec (hi * 2 ^ (- e)) (Zpos m)); try reflexivity; lia.
Qed.

(** [random.uniform(a, b)] for integers 0 <= a <= b <= 2^53 and any draw:
    it returns a float, zero or positive and finite, between [a] and [b]. *)
Lemma uniform_between (a b k : Z) :
  0 <= a -> a <= b -> b <= 2 ^ 53 -> 0 <= k < 2 ^ 53 ->
  exists f : spec_float,
    uniform a b k = Return (PyFloat f) /\ float_between a b f.
Proof.
  intros A AB B K. unfold uniform.
  destruct (float_of_int_exact (b - a)) as (fd & Fd & Bd); [lia|].
  destruct (float_of_int_exact a) as (fa & Fa & Ba); [lia|].
  cbn [mul add to_float bind]. rewrite Fd. cbn [bind]. rewrite Fa. cbn [bind].
  eexists. split; [reflexivity|].
  replace b with (a + (b - a)) at 1 by lia.
  apply float_add_between; try lia; [exact Ba|].
  apply float_mul_between; [lia | | apply random_between; exact K].
  apply (float_between_weaken (b - a) (b - a)); [lia | lia | exact Bd].
Qed.

End Uniform.

(** ** ForkResolver: the tie-break hash *)

Section TieBreak.

Import hashlib.

Lemma hex_value_high (b : byte) :
  hex_value (hex_char (Z_of_byte b / 16)) = Some (Z_of_byte b / 16).
Proof. destruct b; reflexivity. Qed.

Lemma hex_value_low (b : byte) :
  hex_value (hex_char (Z_of_byte b mod 16)) = Some (Z_of_byte b mod 16).
Proof. destruct b; reflexivity. Qed.

Lemma int16_digits_hex_of_bytes (bs : list byte) :
  forall acc, int16_digits acc (hex_of_bytes bs) = Return (unsigned_be bs acc).
Proof.
  induction bs as [|b bs IH]; intros acc; [reflexivity|].
  cbn [hex_of_bytes int16_digits].
  rewrite hex_value_high, hex_value_low, IH.
  unfold unsigned_be; cbn [fold_left]. do 2 f_equal.
  pose proof (Z.div_mod (Z_of_byte b) 16). lia.
Qed.

Lemma md5_digest_cons (msg : list byte) :
  exists b bs, md5_digest msg = b :: bs.
Proof. unfold md5_digest, bytes_of_word; cbn [map app]; eauto. Qed.

Lemma int16_hexdigest (msg : list byte) :
  int16 (hexdigest msg) = Return (unsigned_be (md5_digest msg) 0).
Proof.
  unfold hexdigest.
  rewrite <- int16_digits_hex_of_bytes.
  destruct (md5_digest_cons msg) as (b & bs & ->). reflexivity.
Qed.

(** [hash_signer_pubkey] never raises: a digest is always a non-empty run
    of hexadecimal digits. *)
Lemma hash_signer_pubkey_tie_break (h : BlockHeader) :
  ForkResolver.hash_signer_pubkey (signer_pubkey h) (previous_block_id h)
  = Return (tie_break h).
Proof. apply int16_hexdigest. Qed.

End TieBreak.

Example md5_empty :
  hashlib.hexdigest [] = "d41d8cd98f00b204e9800998ecf8427e"%string.
Proof. vm_compute. reflexivity. Qed.

Example md5_abc :
  hashlib.hexdigest (list_byte_of_string "abc")
  = "900150983cd24fb0d6963f7d28e17f72"%string.
Proof. vm_compute. reflexivity. Qed.

Example md5_two_blocks :
  hashlib.hexdigest
    (list_byte_of_string
       "12345678901234567890123456789012345678901234567890123456789012345678901234567890")
  = "57edf4a22be3c955ac49da2e2107b67a"%string.
Proof. vm_compute. reflexivity. Qed.

(** Messages of 55, 56 and 64 bytes: the padding fills one block exactly,
    spills into a second, and follows a full block. *)
Example md5_padding_edges :
  map (fun n => hashlib.hexdigest (repeat x61 n)) [55; 56; 64]%nat
  = [ "ef1772b6dff9a122358552954ad0df65";
      "3b0c8ac703f828b04c6c197006d17218";
      "014842d480b571495a4a0363793f7367" ]%string.
Proof. vm_compute. reflexivity. Qed.

Example int16_ff : int16 "00ff" = Return 255.
Proof. reflexivity. Qed.

Example int16_empty : int16 "" = Raise ValueError.
Proof. reflexivity. Qed.

(** ** ForkResolver.compare_forks *)

Section CompareForks.

Import ForkResolver.

Lemma compare_forks_same_height (cur new : BlockWrapper) :
  wrapper_block_num new = wrapper_block_num cur ->
  compare_forks cur new
  = Return (tie_break (header new) <? tie_break (header cur)).
Proof.
  intros E. unfold compare_forks.
  rewrite E, Z.eqb_refl, !hash_signer_pubkey_tie_break. reflexivity.
Qed.

Lemma compare_forks_other_height (cur new : BlockWrapper) :
  wrapper_block_num new <> wrapper_block_num cur ->
  compare_forks cur new
  = Return (wrapper_block_num new >? wrapper_block_num cur).
Proof.
  intros E. unfold compare_forks.
  apply Z.eqb_neq in E. rewrite E. reflexivity.
Qed.

(** C1. At equal block numbers [compare_forks] returns, without raising,
    whether the new head's tie-break integer (md5 of signer_pubkey followed
    by previous_block_id, read as an unsigned integer) is below the current
    head's; the result is a function of the block numbers, signers and
    previous block ids alone, so two calls on the same inputs agree; and
    when the two tie-break integers differ, swapping the arguments negates
    the result. *)
Theorem compare_forks_equal_height_deterministic_swap
    (cur new : BlockWrapper) :
  wrapper_block_num new = wrapper_block_num cur ->
  compare_forks cur new
  = Return (tie_break (header new) <? tie_break (header cur))
  /\ (forall cur' new' : BlockWrapper,
      wrapper_block_num cur' = wrapper_block_num cur ->
      wrapper_block_num new' = wrapper_block_num new ->
      signer_pubkey (header cur') = signer_pubkey (header cur) ->
      signer_pubkey (header new') = signer_pubkey (header new) ->
      previous_block_id (header cur') = previous_block_id (header cur) ->
      previous_block_id (header new') = previous_block_id (header new) ->
      compare_forks cur' new' = compare_forks cur new)
  /\ (tie_break (header cur) <> tie_break (header new) ->
      exists b : bool,
        compare_forks cur new = Return b
        /\ compare_forks new cur = Return (negb b)).
Proof.
  intros E. split; [apply compare_forks_same_height; exact E|]. split.
  - intros cur' new' Ec En Sc Sn Pc Pn.
    rewrite (compare_forks_same_height cur new E).
    rewrite (compare_forks_same_height cur' new') by congruence.
    unfold tie_break. rewrite Sc, Sn, Pc, Pn. reflexivity.
  - intros D. exists (tie_break (header new) <? tie_break (header cur)).
    split; [apply compare_forks_same_height; exact E|].
    rewrite compare_forks_same_height by (symmetry; exact E).
    f_equal. rewrite Z.ltb_antisym, Z.leb_antisym.
    destruct (Z.ltb_spec (tie_break (header new)) (tie_break (header cur)));
      destruct (Z.ltb_spec (tie_break (header cur)) (tie_break (header new)));
      try reflexivity; lia.
Qed.

(** C2. At different block numbers [compare_forks cur new] returns true
    exactly when the new head's block number is the greater one, and
    swapping the arguments negates the result. *)
Theorem compare_forks_longest_chain (cur new : BlockWrapper) :
  wrapper_block_num new <> wrapper_block_num cur ->
  (compare_forks cur new = Return true
   <-> wrapper_block_num new > wrapper_block_num cur)
  /\ exists b : bool,
       compare_forks cur new = Return b
       /\ compare_forks new cur = Return (negb b).
Proof.
  intros E.
  rewrite (compare_forks_other_height cur new E).
  rewrite (compare_forks_other_height new cur) by congruence.
  split.
  - split.
    + intros R. injection R as R. apply Z.gtb_lt in R. lia.
    + intros G. f_equal. apply Z.gtb_lt. lia.
  - eexists; split; [reflexivity|]. f_equal.
    rewrite !Z.gtb_ltb.
    destruct (Z.ltb_spec (wrapper_block_num cur) (wrapper_block_num new));
      destruct (Z.ltb_spec (wrapper_block_num new) (wrapper_block_num cur));
      try reflexivity; lia.
Qed.

(** Two heads at block 10 by different signers, and one at block 11. *)
Lemma compare_forks_equal_height_witness :
  wrapper_block_num (mkBlockWrapper (example_header "03bb"))
  = wrapper_block_num (mkBlockWrapper (example_header "02aa"))
  /\ tie_break (example_header "02aa") <> tie_break (example_header "03bb")
  /\ exists b : bool,
       compare_forks (mkBlockWrapper (example_header "02aa"))
                     (mkBlockWrapper (example_header "03bb")) = Return b
       /\ compare_forks (mkBlockWrapper (example_header "03bb"))
                        (mkBlockWrapper (example_header "02aa"))
          = Return (negb b).
Proof.
  assert (D : tie_break (example_header "02aa")
              <> tie_break (example_header "03bb"))
    by (vm_compute; discriminate).
  split; [reflexivity|]. split; [exact D|].
  exact (proj2 (proj2 (compare_forks_equal_height_deterministic_swap
                         (mkBlockWrapper (example_header "02aa"))
                         (mkBlockWrapper (example_header "03bb")) eq_refl))
               D).
Defined.

Lemma compare_forks_longest_chain_witness :
  wrapper_block_num
    (mkBlockWrapper (mkBlockHeader 11 "00ff" "03bb" [] "state-root"))
  <> wrapper_block_num (mkBlockWrapper (example_header "02aa"))
  /\ (compare_forks
        (mkBlockWrapper (example_header "02aa"))
        (mkBlockWrapper (mkBlockHeader 11 "00ff" "03bb" [] "state-root"))
      = Return true
      <-> wrapper_block_num
            (mkBlockWrapper (mkBlockHeader 11 "00ff" "03bb" [] "state-root"))
          > wrapper_block_num (mkBlockWrapper (example_header "02aa"))).
Proof.
  assert (D : wrapper_block_num
                (mkBlockWrapper (mkBlockHeader 11 "00ff" "03bb" [] "state-root"))
              <> wrapper_block_num (mkBlockWrapper (example_header "02aa")))
    by (vm_compute; discriminate).
  split; [exact D|].
  exact (proj1 (compare_forks_longest_chain
                  (mkBlockWrapper (example_header "02aa"))
                  (mkBlockWrapper (mkBlockHeader 11 "00ff" "03bb" [] "state-root"))
                  D)).
Defined.

End CompareForks.

(** ** BlockVerifier.verify_block *)

Section Verify.

Import BlockVerifier BlockPublisher.

Lemma bytes_eqb_eq (a b : list byte) : bytes_eqb a b = true <-> a = b.
Proof.
  revert b. induction a as [|x a IH]; intros [|y b]; cbn [bytes_eqb];
    try (split; [discriminate | congruence]); [tauto|].
  rewrite andb_true_iff, IH. split.
  - intros [E ->]. apply Byte.byte_dec_bl in E. congruence.
  - intros E. injection E as -> ->. split; [|reflexivity].
    apply Byte.byte_dec_lb. reflexivity.
Qed.

Lemma stamped_consensus (self : BlockPublisher.t) (h : BlockHeader)
    (now : spec_float) (k : Z) :
  consensus (stamped self h now k) = Devmode.
Proof.
  unfold stamped, initialize_block.
  destruct (uniform _ _ _); reflexivity.
Qed.

(** C3. [verify_block] returns true exactly when the header's consensus
    field is the marker [b"Devmode"] that [initialize_block] writes, and
    false for every other value, the empty one included; a header stamped by
    [initialize_block] (whatever the publisher, the clock and the random
    draw, and whether or not the call then raises) is accepted. *)
Theorem verify_block_accepts_exactly_devmode :
  (forall w : BlockWrapper,
      verify_block w = true <-> consensus (header w) = Devmode)
  /\ (forall w : BlockWrapper,
      verify_block w = false <-> consensus (header w) <> Devmode)
  /\ (forall h : BlockHeader,
      verify_block (mkBlockWrapper (set_consensus h [])) = false)
  /\ (forall (self : BlockPublisher.t) (h : BlockHeader)
             (now : spec_float) (k : Z),
      consensus (stamped self h now k) = list_byte_of_string "Devmode"
      /\ verify_block (mkBlockWrapper (stamped self h now k)) = true).
Proof.
  assert (A : forall w, verify_block w = true <-> consensus (header w) = Devmode)
    by (intros w; apply bytes_eqb_eq).
  repeat split.
  - apply A.
  - apply A.
  - intros E D. apply A in D. congruence.
  - intros D. destruct (verify_block w) eqn:V; [|reflexivity].
    apply A in V. contradiction.
  - apply stamped_consensus.
  - apply A. apply stamped_consensus.
Qed.

End Verify.

(** ** BlockPublisher.check_publish_block *)

Section CheckPublish.

Import BlockPublisher.

Lemma contains_In (l : list string) (x : string) :
  contains (Some l) x = true <-> In x l.
Proof.
  cbn [contains]. rewrite existsb_exists. split.
  - intros (y & I & E). apply String.eqb_eq in E. congruence.
  - intros I. exists x. split; [exact I | apply String.eqb_refl].
Qed.

Lemma permitted_guard (publishers : option (list string)) (x : string) :
  permitted publishers x ->
  truthy publishers && negb (contains publishers x) = false.
Proof.
  intros P. destruct publishers as [[|y l]|]; try reflexivity.
  cbn [truthy andb].
  assert (I : In x (y :: l)) by (apply P; [reflexivity | discriminate]).
  apply contains_In in I. rewrite I. reflexivity.
Qed.

Lemma excluded_guard (l : list string) (x : string) :
  l <> [] -> ~ In x l ->
  truthy (Some l) && negb (contains (Some l) x) = true.
Proof.
  intros N I. destruct l as [|y l]; [contradiction|].
  cbn [truthy andb].
  destruct (contains (Some (y :: l)) x) eqn:C; [|reflexivity].
  apply contains_In in C. contradiction.
Qed.

(** What [initialize_block] leaves in the publisher, whether it returns or
    raises. *)
Lemma initialized_min_wait_time self h now k :
  _min_wait_time (initialized self h now k)
  = get_setting
      (setting_int
         (create_view (_state_view_factory self)
            match chain_head (block_store (_block_cache self)) with
            | Some head => wrapper_state_root_hash head
            | None => state_root_hash h
            end))
      "sawtooth.consensus.min_wait_time" (_min_wait_time self).
Proof. unfold initialized, initialize_block. destruct (uniform _ _ _); reflexivity. Qed.

Lemma initialized_max_wait_time self h now k :
  _max_wait_time (initialized self h now k)
  = get_setting
      (setting_int
         (create_view (_state_view_factory self)
            match chain_head (block_store (_block_cache self)) with
            | Some head => wrapper_state_root_hash head
            | None => state_root_hash h
            end))
      "sawtooth.consensus.max_wait_time" (_max_wait_time self).
Proof. unfold initialized, initialize_block. destruct (uniform _ _ _); reflexivity. Qed.

Lemma initialized_start_time self h now k :
  _start_time (initialized self h now k) = PyFloat now.
Proof. unfold initialized, initialize_block. destruct (uniform _ _ _); reflexivity. Qed.

Lemma initialized_wait_time self h now k w :
  uniform (_min_wait_time (initialized self h now k))
          (_max_wait_time (initialized self h now k)) k = Return w ->
  snd (initialize_block self h now k) = Return true
  /\ _wait_time (initialized self h now k) = w.
Proof.
  intros U.
  rewrite initialized_min_wait_time, initialized_max_wait_time in U.
  unfold initialized, initialize_block, ConfigView. rewrite U.
  split; reflexivity.
Qed.

Ltac branches :=
  unfold check_publish_block;
  repeat match goal with
         | H : ?g = _ |- context [?g] => rewrite H
         | |- context [?a =? ?b] => destruct (Z.eqb_spec a b)
         | |- context [?a >? ?b] =>
             rewrite (Z.gtb_ltb a b); destruct (Z.ltb_spec b a)
         | |- context [?a <=? ?b] => destruct (Z.leb_spec a b)
         end;
  cbn [andb bind]; try lia; try reflexivity.

(** C7. When the list of valid publishers is non-empty and does not contain
    the candidate header's signer, [check_publish_block] returns False,
    whatever the wait times, the start time, the sampled wait and the clock. *)
Theorem check_publish_block_rejects_excluded_signer
    (self : BlockPublisher.t) (h : BlockHeader) (now : spec_float)
    (l : list string) :
  _valid_block_publishers self = Some l ->
  l <> [] ->
  ~ In (signer_pubkey h) l ->
  check_publish_block self h now = Return (Some false).
Proof.
  intros V N I. unfold check_publish_block.
  rewrite V, (excluded_guard l _ N I). reflexivity.
Qed.

(** C5. After [initialize_block] has read wait times with
    0 < max_wait_time <= min_wait_time (so min_wait_time > 0), and for a
    permitted signer, [check_publish_block] returns False at every clock
    reading. *)
Theorem check_publish_block_never_claims_when_max_le_min
    (self : BlockPublisher.t) (h : BlockHeader) (start : spec_float) (k : Z)
    (candidate : BlockHeader) (now : spec_float) :
  _min_wait_time (initialized self h start k) > 0 ->
  0 < _max_wait_time (initialized self h start k)
    <= _min_wait_time (initialized self h start k) ->
  permitted (_valid_block_publishers (initialized self h start k))
            (signer_pubkey candidate) ->
  check_publish_block (initialized self h start k) candidate now
  = Return (Some false).
Proof.
  intros M X P. unfold check_publish_block.
  rewrite (permitted_guard _ _ P). branches.
Qed.

(** The fixed-delay branch, as the code has it: True once the deadline
    [start + min_wait_time] has passed, and no value before. *)
Lemma check_publish_block_fixed_delay
    (self : BlockPublisher.t) (candidate : BlockHeader) (now : spec_float)
    (deadline : pynum) :
  _min_wait_time self > 0 ->
  _max_wait_time self <= 0 ->
  permitted (_valid_block_publishers self) (signer_pubkey candidate) ->
  add (_start_time self) (PyInt (_min_wait_time self)) = Return deadline ->
  check_publish_block self candidate now
  = Return (if le deadline (PyFloat now) then Some true else None).
Proof.
  intros M X P D. unfold check_publish_block.
  rewrite (permitted_guard _ _ P). branches.
  destruct (le deadline (PyFloat now)); reflexivity.
Qed.

(** The random-delay branch, as the code has it. *)
Lemma check_publish_block_random_delay
    (self : BlockPublisher.t) (candidate : BlockHeader) (now : spec_float)
    (deadline : pynum) :
  _min_wait_time self > 0 ->
  _max_wait_time self > _min_wait_time self ->
  permitted (_valid_block_publishers self) (signer_pubkey candidate) ->
  add (_start_time self) (_wait_time self) = Return deadline ->
  check_publish_block self candidate now
  = Return (if le deadline (PyFloat now) then Some true else None).
Proof.
  intros M X P D. unfold check_publish_block.
  rewrite (permitted_guard _ _ P). branches.
  destruct (le deadline (PyFloat now)); reflexivity.
Qed.

(** C10. In the two timing branches (min_wait_time > 0 with
    max_wait_time <= 0, where the deadline is start + min_wait_time, and
    min_wait_time > 0 with max_wait_time > min_wait_time, where it is
    start + wait_time), a call made before the deadline returns None and not
    the boolean False: the result of [check_publish_block] is an optional
    boolean. *)
Theorem check_publish_block_returns_none_before_deadline
    (self : BlockPublisher.t) (candidate : BlockHeader) (now : spec_float)
    (deadline : pynum) :
  permitted (_valid_block_publishers self) (signer_pubkey candidate) ->
  _min_wait_time self > 0 ->
  (_max_wait_time self <= 0
   /\ add (_start_time self) (PyInt (_min_wait_time self)) = Return deadline)
  \/ (_max_wait_time self > _min_wait_time self
      /\ add (_start_time self) (_wait_time self) = Return deadline) ->
  le deadline (PyFloat now) = false ->
  check_publish_block self candidate now = Return None
  /\ check_publish_block self candidate now <> Return (Some false).
Proof.
  intros P M [[X D]|[X D]] L.
  - rewrite (check_publish_block_fixed_delay self candidate now deadline M X P D).
    rewrite L. split; [reflexivity | discriminate].
  - rewrite (check_publish_block_random_delay self candidate now deadline M X P D).
    rewrite L. split; [reflexivity | discriminate].
Qed.

(** C6. With min_wait_time = 5 and max_wait_time = 0, initialised at
    time 100.0 and asked at time 102.0 (before the deadline 105.0),
    [check_publish_block] returns None, not False; at time 105.0 it returns
    True. *)
Theorem check_publish_block_fixed_delay_before_deadline_is_none :
  check_publish_block
    (initialized (example_publisher (Some 5) (Some 0) None)
                 (example_header "02aa") (seconds 100) 0)
    (example_header "02aa") (seconds 102) = Return None
  /\ check_publish_block
       (initialized (example_publisher (Some 5) (Some 0) None)
                    (example_header "02aa") (seconds 100) 0)
       (example_header "02aa") (seconds 105) = Return (Some true).
Proof. split; vm_compute; reflexivity. Qed.

(** C8, as amended. After [initialize_block] has read min_wait_time = 0, and
    for a permitted signer, [check_publish_block] returns True at every clock
    reading, whatever max_wait_time is. *)
Theorem check_publish_block_claims_at_once_when_min_is_zero
    (self : BlockPublisher.t) (h : BlockHeader) (start : spec_float) (k : Z)
    (candidate : BlockHeader) (now : spec_float) :
  _min_wait_time (initialized self h start k) = 0 ->
  permitted (_valid_block_publishers (initialized self h start k))
            (signer_pubkey candidate) ->
  check_publish_block (initialized self h start k) candidate now
  = Return (Some true).
Proof.
  intros M P. unfold check_publish_block.
  rewrite (permitted_guard _ _ P), M. reflexivity.
Qed.

(** C8, counterexample. With min_wait_time = 0 and the valid publishers
    ["02aa"], a candidate signed by "03bb" is refused right after
    [initialize_block]: the call returns False, not True. *)
Lemma check_publish_block_min_zero_excluded_signer :
  _min_wait_time
    (initialized (example_publisher (Some 0) (Some 0) (Some ["02aa"%string]))
                 (example_header "03bb") (seconds 100) 0) = 0
  /\ check_publish_block
       (initialized (example_publisher (Some 0) (Some 0) (Some ["02aa"%string]))
                    (example_header "03bb") (seconds 100) 0)
       (example_header "03bb") (seconds 100) = Return (Some false)
  /\ check_publish_block
       (initialized (example_publisher (Some 0) (Some 0) (Some ["02aa"%string]))
                    (example_header "03bb") (seconds 100) 0)
       (example_header "03bb") (seconds 100) <> Return (Some true).
Proof. split; [|split]; vm_compute; [reflexivity | reflexivity | discriminate]. Qed.

(** C4, as amended. After [initialize_block] has read min_wait_time = 5 and
    max_wait_time = 5, the sampled wait time equals 5 (for every draw of 53
    bits), yet [check_publish_block] returns False at every clock reading
    and for every candidate: equal bounds fall into the final branch, not
    into the random-delay one. *)
Theorem check_publish_block_equal_bounds_never_claims
    (self : BlockPublisher.t) (h : BlockHeader) (start : spec_float) (k : Z)
    (candidate : BlockHeader) (now : spec_float) :
  _min_wait_time (initialized self h start k) = 5 ->
  _max_wait_time (initialized self h start k) = 5 ->
  0 <= k < 2 ^ 53 ->
  check_publish_block (initialized self h start k) candidate now
  = Return (Some false)
  /\ le (PyInt 5) (_wait_time (initialized self h start k)) = true
  /\ le (_wait_time (initialized self h start k)) (PyInt 5) = true.
Proof.
  intros M X K. split.
  - unfold check_publish_block. rewrite M, X.
    destruct (truthy _ && negb _); reflexivity.
  - destruct (uniform_between 5 5 k) as (f & U & B); try lia.
    destruct (initialized_wait_time self h start k (PyFloat f)) as [_ W].
    { rewrite M, X. exact U. }
    rewrite W. apply le_of_float_between. exact B.
Qed.

(** C4, counterexample. With min_wait_time = 5 and max_wait_time = 5,
    initialised at time 100.0, the call at time 105.0 (and at 1000.0)
    returns False, not True. *)
Lemma check_publish_block_equal_bounds_at_deadline :
  check_publish_block
    (initialized (example_publisher (Some 5) (Some 5) None)
                 (example_header "02aa") (seconds 100) 0)
    (example_header "02aa") (seconds 105) = Return (Some false)
  /\ check_publish_block
       (initialized (example_publisher (Some 5) (Some 5) None)
                    (example_header "02aa") (seconds 100) 0)
       (example_header "02aa") (seconds 1000) = Return (Some false)
  /\ check_publish_block
       (initialized (example_publisher (Some 5) (Some 5) None)
                    (example_header "02aa") (seconds 100) 0)
       (example_header "02aa") (seconds 105) <> Return (Some true).
Proof. split; [|split]; vm_compute; [reflexivity | reflexivity | discriminate]. Qed.

(** Concrete runs of the theorems above. *)
Lemma check_publish_block_rejects_excluded_signer_witness :
  check_publish_block
    (initialized (example_publisher (Some 5) (Some 20) (Some ["02aa"%string]))
                 (example_header "03bb") (seconds 100) 7)
    (example_header "03bb") (seconds 1000) = Return (Some false).
Proof.
  apply (check_publish_block_rejects_excluded_signer _ _ _ ["02aa"%string]).
  - reflexivity.
  - discriminate.
  - cbn. intros [E|[]]. discriminate.
Defined.

Lemma permitted_unset (signer : string) : permitted None signer.
Proof. intros l E. discriminate. Qed.

Lemma check_publish_block_never_claims_when_max_le_min_witness :
  check_publish_block
    (initialized (example_publisher (Some 5) (Some 3) None)
                 (example_header "02aa") (seconds 100) 7)
    (example_header "02aa") (seconds 1000) = Return (Some false).
Proof.
  apply check_publish_block_never_claims_when_max_le_min.
  - reflexivity.
  - split; [reflexivity | discriminate].
  - apply permitted_unset.
Defined.

Lemma check_publish_block_returns_none_before_deadline_witness :
  check_publish_block
    (initialized (example_publisher (Some 5) (Some 20) None)
                 (example_header "02aa") (seconds 100) 0)
    (example_header "02aa") (seconds 102) = Return None
  /\ check_publish_block
       (initialized (example_publisher (Some 5) (Some 20) None)
                    (example_header "02aa") (seconds 100) 0)
       (example_header "02aa") (seconds 102) <> Return (Some false).
Proof.
  apply (check_publish_block_returns_none_before_deadline _ _ _
           (PyFloat (seconds 105))).
  - apply permitted_unset.
  - reflexivity.
  - right. split; [reflexivity | vm_compute; reflexivity].
  - vm_compute; reflexivity.
Defined.

Lemma check_publish_block_claims_at_once_when_min_is_zero_witness :
  check_publish_block
    (initialized (example_publisher (Some 0) (Some 30) None)
                 (example_header "02aa") (seconds 100) 7)
    (example_header "02aa") (seconds 100) = Return (Some true).
Proof.
  apply check_publish_block_claims_at_once_when_min_is_zero.
  - reflexivity.
  - apply permitted_unset.
Defined.

Lemma check_publish_block_equal_bounds_never_claims_witness :
  check_publish_block
    (initialized (example_publisher (Some 5) (Some 5) None)
                 (example_header "02aa") (seconds 100) 7)
    (example_header "02aa") (seconds 105) = Return (Some false).
Proof.
  apply (check_publish_block_equal_bounds_never_claims
           (example_publisher (Some 5) (Some 5) None)
           (example_header "02aa") (seconds 100) 7).
  - reflexivity.
  - reflexivity.
  - lia.
Defined.

End CheckPublish.

(** ** BlockPublisher.initialize_block: the sampled wait time *)

Section WaitTime.

Import BlockPublisher.

(** After [initialize_block] the wait time is within the wait times read,
    when these lie in [0, 2^53]. *)
Lemma initialized_wait_time_between self h start k :
  0 <= k < 2 ^ 53 ->
  0 <= _min_wait_time (initialized self h start k) ->
  _min_wait_time (initialized self h start k)
    < _max_wait_time (initialized self h start k) ->
  _max_wait_time (initialized self h start k) <= 2 ^ 53 ->
  snd (initialize_block self h start k) = Return true
  /\ le (PyInt (_min_wait_time (initialized self h start k)))
        (_wait_time (initialized self h start k)) = true
  /\ le (_wait_time (initialized self h start k))
        (PyInt (_max_wait_time (initialized self h start k))) = true.
Proof.
  intros K A AB B.
  destruct (uniform_between _ _ k A (Z.lt_le_incl _ _ AB) B K) as (f & U & F).
  destruct (initialized_wait_time self h start k (PyFloat f) U) as [R W].
  rewrite W. split; [exact R|]. apply le_of_float_between. exact F.
Qed.

(** C9, as amended. After every [initialize_block] call (from any state of
    the publisher, for every draw of 53 random bits) and after any calls
    that follow it, whenever the wait times then in force satisfy
    0 <= min_wait_time < max_wait_time <= 2^53, the sampled wait time lies
    between them, bounds included; and when the wait times read by the first
    call are in that range, it returns True. *)
Theorem initialize_block_wait_time_within_bounds
    (self : BlockPublisher.t) (h : BlockHeader) (start : spec_float) (k : Z)
    (calls : list call) :
  0 <= k < 2 ^ 53 ->
  Forall draw_valid calls ->
  (0 <= _min_wait_time (initialized self h start k) ->
   _min_wait_time (initialized self h start k)
     < _max_wait_time (initialized self h start k) ->
   _max_wait_time (initialized self h start k) <= 2 ^ 53 ->
   snd (initialize_block self h start k) = Return true)
  /\ (0 <= _min_wait_time (fold_left after calls (initialized self h start k)) ->
      _min_wait_time (fold_left after calls (initialized self h start k))
        < _max_wait_time (fold_left after calls (initialized self h start k)) ->
      _max_wait_time (fold_left after calls (initialized self h start k))
        <= 2 ^ 53 ->
      le (PyInt (_min_wait_time
                   (fold_left after calls (initialized self h start k))))
         (_wait_time (fold_left after calls (initialized self h start k)))
      = true
      /\ le (_wait_time (fold_left after calls (initialized self h start k)))
            (PyInt (_max_wait_time
                      (fold_left after calls (initialized self h start k))))
         = true).
Proof.
  intros K V. split.
  - intros A AB B. apply initialized_wait_time_between; assumption.
  - revert self h start k K.
    induction V as [|c calls D V IH]; intros self h start k K; cbn [fold_left].
    + intros A AB B. apply initialized_wait_time_between; assumption.
    + destruct c as [h' now' k' | h' now' | h']; cbn [after].
      * apply IH. exact D.
      * apply IH. exact K.
      * apply IH. exact K.
Qed.

(** C9, counterexample. With min_wait_time = 2^53 + 1 and
    max_wait_time = 2^53 + 2 and the draw 0, [initialize_block] returns True
    and leaves the wait time 2^53 (the float nearest to 2^53 + 1, plus 0.0),
    which is below min_wait_time. *)
Lemma initialize_block_wait_time_below_min :
  _max_wait_time
    (initialized (example_publisher (Some (2 ^ 53 + 1)) (Some (2 ^ 53 + 2)) None)
                 (example_header "02aa") (seconds 100) 0)
  > _min_wait_time
      (initialized (example_publisher (Some (2 ^ 53 + 1)) (Some (2 ^ 53 + 2)) None)
                   (example_header "02aa") (seconds 100) 0)
  /\ snd (initialize_block
            (example_publisher (Some (2 ^ 53 + 1)) (Some (2 ^ 53 + 2)) None)
            (example_header "02aa") (seconds 100) 0) = Return true
  /\ _wait_time
       (initialized (example_publisher (Some (2 ^ 53 + 1)) (Some (2 ^ 53 + 2)) None)
                    (example_header "02aa") (seconds 100) 0)
     = PyFloat (seconds (2 ^ 53))
  /\ le (PyInt (_min_wait_time
                  (initialized
                     (example_publisher (Some (2 ^ 53 + 1)) (Some (2 ^ 53 + 2)) None)
                     (example_header "02aa") (seconds 100) 0)))
        (_wait_time
           (initialized
              (example_publisher (Some (2 ^ 53 + 1)) (Some (2 ^ 53 + 2)) None)
              (example_header "02aa") (seconds 100) 0))
     = false.
Proof. split; [|split; [|split]]; vm_compute; reflexivity. Qed.

Lemma initialize_block_wait_time_within_bounds_witness :
  le (PyInt 5)
     (_wait_time
        (fold_left after
           [CheckPublish (example_header "02aa") (seconds 101);
            Finalize (example_header "02aa")]
           (initialized (example_publisher (Some 5) (Some 20) None)
                        (example_header "02aa") (seconds 100) 4503599627370496)))
  = true
  /\ le (_wait_time
           (fold_left after
              [CheckPublish (example_header "02aa") (seconds 101);
               Finalize (example_header "02aa")]
              (initialized (example_publisher (Some 5) (Some 20) None)
                           (example_header "02aa") (seconds 100) 4503599627370496)))
        (PyInt 20)
     = true.
Proof.
  apply (proj2 (initialize_block_wait_time_within_bounds
                  (example_publisher (Some 5) (Some 20) None)
                  (example_header "02aa") (seconds 100) 4503599627370496
                  [CheckPublish (example_header "02aa") (seconds 101);
                   Finalize (example_header "02aa")]
                  ltac:(lia)
                  ltac:(repeat constructor))).
  - cbn. lia.
  - cbn. lia.
  - cbn. lia.
Defined.

(** [uniform(5, 20)] at the draw 2^52, where [random()] is 0.5: the float
    12.5. *)
Example uniform_midpoint :
  uniform 5 20 4503599627370496
  = Return (PyFloat (S754_finite false 7036874417766400 (-49))).
Proof. vm_compute. reflexivity. Qed.

End WaitTime.

(** * Further properties *)

(** ** ForkResolver: the preference is a strict order *)

Section ForkOrder.

Import ForkResolver.

Lemma compare_forks_value (cur new : BlockWrapper) :
  compare_forks cur new
  = Return (if wrapper_block_num new =? wrapper_block_num cur
            then tie_break (header new) <? tie_break (header cur)
            else wrapper_block_num new >? wrapper_block_num cur).
Proof.
  destruct (Z.eqb_spec (wrapper_block_num new) (wrapper_block_num cur)) as [E|E].
  - apply compare_forks_same_height. exact E.
  - apply compare_forks_other_height. exact E.
Qed.

(** What [compare_forks cur new = Return true] means: the new head is
    higher, or as high with the smaller tie-break integer. *)
Lemma compare_forks_true (cur new : BlockWrapper) :
  compare_forks cur new = Return true
  <-> wrapper_block_num cur < wrapper_block_num new
      \/ (wrapper_block_num cur = wrapper_block_num new
          /\ tie_break (header new) < tie_break (header cur)).
Proof.
  rewrite compare_forks_value.
  destruct (Z.eqb_spec (wrapper_block_num new) (wrapper_block_num cur)) as [E|E].
  - destruct (Z.ltb_spec (tie_break (header new)) (tie_break (header cur)));
      split; intros R; try discriminate; try reflexivity; lia.
  - rewrite Z.gtb_ltb.
    destruct (Z.ltb_spec (wrapper_block_num cur) (wrapper_block_num new));
      split; intros R; try discriminate; try reflexivity; lia.
Qed.

Lemma compare_forks_false (cur new : BlockWrapper) :
  compare_forks cur new = Return false
  <-> ~ (wrapper_block_num cur < wrapper_block_num new
         \/ (wrapper_block_num cur = wrapper_block_num new
             /\ tie_break (header new) < tie_break (header cur))).
Proof.
  rewrite <- compare_forks_true, compare_forks_value.
  destruct (if _ =? _ then _ else _); split; intros H;
    try discriminate; try reflexivity; congruence.
Qed.

(** X1. [compare_forks] never prefers a head over itself, and never
    prefers each of two heads over the other: when it returns True for
    (cur, new) it returns False for (new, cur), at equal and at different
    block numbers. *)
Theorem compare_forks_asymmetric :
  (forall a : BlockWrapper, compare_forks a a = Return false)
  /\ (forall a b : BlockWrapper,
      compare_forks a b = Return true -> compare_forks b a = Return false).
Proof.
  split.
  - intros a. apply compare_forks_false. lia.
  - intros a b H. apply compare_forks_true in H. apply compare_forks_false. lia.
Qed.

(** X2. The preference is transitive: if [b] is preferred over [a] and [c]
    over [b], then [c] is preferred over [a]. *)
Theorem compare_forks_transitive (a b c : BlockWrapper) :
  compare_forks a b = Return true ->
  compare_forks b c = Return true ->
  compare_forks a c = Return true.
Proof.
  rewrite !compare_forks_true. lia.
Qed.

Lemma compare_forks_transitive_witness :
  compare_forks (mkBlockWrapper (example_header "03bb"))
                (mkBlockWrapper (example_header "02aa")) = Return true
  /\ compare_forks (mkBlockWrapper (example_header "02aa"))
                   (mkBlockWrapper
                      (mkBlockHeader 11 "00ff" "03bb" [] "state-root"))
     = Return true
  /\ compare_forks (mkBlockWrapper (example_header "03bb"))
                   (mkBlockWrapper
                      (mkBlockHeader 11 "00ff" "03bb" [] "state-root"))
     = Return true.
Proof.
  assert (H1 : compare_forks (mkBlockWrapper (example_header "03bb"))
                             (mkBlockWrapper (example_header "02aa"))
               = Return true) by (vm_compute; reflexivity).
  assert (H2 : compare_forks (mkBlockWrapper (example_header "02aa"))
                             (mkBlockWrapper
                                (mkBlockHeader 11 "00ff" "03bb" [] "state-root"))
               = Return true) by (vm_compute; reflexivity).
  split; [exact H1|]. split; [exact H2|].
  exact (compare_forks_transitive _ _ _ H1 H2).
Defined.

(** X3. Neither of two heads is preferred over the other exactly when they
    have the same block number and the same tie-break integer; this is the
    case of two heads at one block number with the same signer and the same
    previous block id, whatever else differs in their headers. *)
Theorem compare_forks_tie :
  (forall a b : BlockWrapper,
      compare_forks a b = Return false /\ compare_forks b a = Return false
      <-> wrapper_block_num a = wrapper_block_num b
          /\ tie_break (header a) = tie_break (header b))
  /\ (forall (n : Z) (prev signer : string) (c c' : list byte)
             (root root' : string),
      compare_forks (mkBlockWrapper (mkBlockHeader n prev signer c root))
                    (mkBlockWrapper (mkBlockHeader n prev signer c' root'))
      = Return false).
Proof.
  split.
  - intros a b. rewrite !compare_forks_false. lia.
  - intros. apply compare_forks_false. unfold tie_break. cbn. lia.
Qed.

End ForkOrder.

(** ** ForkResolver.hash_signer_pubkey *)

Section TieBreakHash.

Import hashlib ForkResolver.





Lemma encode_append (s1 s2 : string) :
  encode (s1 ++ s2) = encode s1 ++ encode s2.
Proof.
  unfold encode, list_byte_of_string.
  induction s1 as [|c s1 IH]; cbn; [reflexivity|]. rewrite IH. reflexivity.
Qed.

(** X5. The two strings are hashed one after the other with nothing
    between them, so the hash depends on their concatenation only: pairs
    that concatenate to the same string (such as "ab", "c" and "a", "bc")
    get the same integer, and two heads at one block number whose signer
    and previous block id concatenate alike are never preferred over each
    other. *)
Theorem hash_signer_pubkey_concatenation
    (signer1 previous1 signer2 previous2 : string) :
  (signer1 ++ previous1 = signer2 ++ previous2)%string ->
  hash_signer_pubkey signer1 previous1 = hash_signer_pubkey signer2 previous2
  /\ forall (n : Z) (c1 c2 : list byte) (root1 root2 : string),
       compare_forks
         (mkBlockWrapper (mkBlockHeader n previous1 signer1 c1 root1))
         (mkBlockWrapper (mkBlockHeader n previous2 signer2 c2 root2))
       = Return false.
Proof.
  intros E.
  assert (B : encode signer1 ++ encode previous1
              = encode signer2 ++ encode previous2).
  { rewrite <- !encode_append. f_equal. exact E. }
  split.
  - unfold hash_signer_pubkey, update, md5. cbn [app]. rewrite B. reflexivity.
  - intros. rewrite compare_forks_same_height by reflexivity.
    unfold tie_break. cbn [header signer_pubkey previous_block_id].
    rewrite B. rewrite Z.ltb_irrefl. reflexivity.
Qed.

Lemma hash_signer_pubkey_concatenation_witness :
  hash_signer_pubkey "ab" "c" = hash_signer_pubkey "a" "bc".
Proof.
  exact (proj1 (hash_signer_pubkey_concatenation "ab" "c" "a" "bc" eq_refl)).
Defined.

End TieBreakHash.

(** ** BlockPublisher: which calls claim *)

Section Claiming.

Import BlockPublisher.

Lemma guard_permitted (publishers : option (list string)) (x : string) :
  truthy publishers && negb (contains publishers x) = false ->
  permitted publishers x.
Proof.
  intros G l E N. subst publishers. destruct l as [|y l]; [contradiction|].
  cbn [truthy andb] in G. apply negb_false_iff in G.
  apply contains_In in G. exact G.
Qed.

Lemma timing_never_false (d : result pynum) (now : spec_float) :
  (deadline <- d ;;
   if le deadline (PyFloat now) then Return (Some true) else Return None)
  <> Return (Some false).
Proof.
  destruct d as [x|e]; cbn [bind]; [|discriminate].
  destruct (le x (PyFloat now)); discriminate.
Qed.

(** X6. [check_publish_block] returns the boolean False in exactly three
    situations: the signer is excluded by a non-empty list of valid
    publishers, min_wait_time is negative, or 0 < max_wait_time <=
    min_wait_time.  In every other situation it returns True, returns None
    or raises. *)
Theorem check_publish_block_false_iff
    (self : BlockPublisher.t) (candidate : BlockHeader) (now : spec_float) :
  check_publish_block self candidate now = Return (Some false)
  <-> ~ permitted (_valid_block_publishers self) (signer_pubkey candidate)
      \/ _min_wait_time self < 0
      \/ 0 < _max_wait_time self <= _min_wait_time self.
Proof.
  unfold check_publish_block.
  destruct (truthy (_valid_block_publishers self)
            && negb (contains (_valid_block_publishers self)
                              (signer_pubkey candidate))) eqn:G.
  - split; [|reflexivity]. intros _. left. intros P.
    apply permitted_guard in P. congruence.
  - apply guard_permitted in G.
    destruct (Z.eqb_spec (_min_wait_time self) 0) as [M0|M0].
    { split; [discriminate | intros [N|[N|N]]; [contradiction | lia | lia]]. }
    rewrite !Z.gtb_ltb.
    destruct (Z.ltb_spec 0 (_min_wait_time self)) as [M|M];
      destruct (Z.leb_spec (_max_wait_time self) 0) as [X|X];
      destruct (Z.ltb_spec (_min_wait_time self) (_max_wait_time self)) as [Y|Y];
      cbn [andb];
      try (split; [intros R; apply timing_never_false in R; contradiction
                  | intros [N|[N|N]]; [contradiction | lia | lia]]);
      try (split; [intros _; right; lia | reflexivity]).
Qed.

(** X7. The random-delay branch after [initialize_block]: with
    0 < min_wait_time < max_wait_time <= 2^53, a draw of 53 bits and a
    permitted signer, the wait time is a float between the two wait times,
    and [check_publish_block] does not raise: it returns True when
    start + wait_time <= now (float addition and comparison) and None
    otherwise. *)
Theorem check_publish_block_random_delay_after_initialize
    (self : BlockPublisher.t) (h : BlockHeader) (start : spec_float) (k : Z)
    (candidate : BlockHeader) (now : spec_float) :
  0 < _min_wait_time (initialized self h start k) ->
  _min_wait_time (initialized self h start k)
    < _max_wait_time (initialized self h start k) ->
  _max_wait_time (initialized self h start k) <= 2 ^ 53 ->
  0 <= k < 2 ^ 53 ->
  permitted (_valid_block_publishers (initialized self h start k))
            (signer_pubkey candidate) ->
  exists w : spec_float,
    _wait_time (initialized self h start k) = PyFloat w
    /\ le (PyInt (_min_wait_time (initialized self h start k))) (PyFloat w)
       = true
    /\ le (PyFloat w) (PyInt (_max_wait_time (initialized self h start k)))
       = true
    /\ check_publish_block (initialized self h start k) candidate now
       = Return (if SFleb (float_add start w) now then Some true else None).
Proof.
  intros M MX X K P.
  destruct (uniform_between _ _ k (Z.lt_le_incl _ _ M) (Z.lt_le_incl _ _ MX) X K)
    as (w & U & F).
  destruct (initialized_wait_time self h start k (PyFloat w) U) as [_ W].
  destruct (le_of_float_between _ _ _ F) as [L1 L2].
  exists w. repeat (split; [assumption|]).
  rewrite (check_publish_block_random_delay _ candidate now
             (PyFloat (float_add start w))); try assumption; try lia.
  - reflexivity.
  - rewrite initialized_start_time, W. reflexivity.
Qed.

Lemma check_publish_block_random_delay_after_initialize_witness :
  exists w : spec_float,
    _wait_time (initialized (example_publisher (Some 5) (Some 20) None)
                            (example_header "02aa") (seconds 100)
                            4503599627370496) = PyFloat w
    /\ le (PyInt 5) (PyFloat w) = true
    /\ le (PyFloat w) (PyInt 20) = true
    /\ check_publish_block
         (initialized (example_publisher (Some 5) (Some 20) None)
                      (example_header "02aa") (seconds 100) 4503599627370496)
         (example_header "02aa") (seconds 113)
       = Return (if SFleb (float_add (seconds 100) w) (seconds 113)
                 then Some true else None).
Proof.
  apply (check_publish_block_random_delay_after_initialize
           (example_publisher (Some 5) (Some 20) None)
           (example_header "02aa") (seconds 100) 4503599627370496
           (example_header "02aa") (seconds 113)).
  - cbn. lia.
  - cbn. lia.
  - cbn. lia.
  - lia.
  - apply permitted_unset.
Defined.

End Claiming.

(** ** BlockPublisher: a claim stays open *)

Section Polling.

Import BlockPublisher.

(** The float order is transitive (it compares sign, then exponent, then
    mantissa). *)
Lemma SFleb_trans (x y z : spec_float) :
  SFleb x y = true -> SFleb y z = true -> SFleb x z = true.
Proof.
  unfold SFleb, SFcompare.
  destruct x as [sx|sx| |sx mx ex]; destruct y as [sy|sy| |sy my ey];
    destruct z as [sz|sz| |sz mz ez];
    try destruct sx; try destruct sy; try destruct sz;
    try discriminate; try reflexivity;
    rewrite ?Pos.compare_cont_spec; cbn [Pos.switch_Eq];
    destruct (Z.compare_spec ex ey); destruct (Z.compare_spec ey ez);
    destruct (Z.compare_spec ex ez);
    try destruct (Pos.compare_spec mx my); try destruct (Pos.compare_spec my mz);
    try destruct (Pos.compare_spec mx mz);
    cbn [CompOpp]; try discriminate; try reflexivity; intros _ _; exfalso; lia.
Qed.

Lemma claim_stays (d : result pynum) (now later : spec_float) :
  (forall x, d = Return x -> exists f, x = PyFloat f) ->
  SFleb now later = true ->
  (deadline <- d ;;
   if le deadline (PyFloat now) then Return (Some true) else Return None)
  = Return (Some true) ->
  (deadline <- d ;;
   if le deadline (PyFloat later) then Return (Some true) else Return None)
  = Return (Some true).
Proof.
  intros F L. destruct d as [x|e]; cbn [bind]; [|discriminate].
  destruct (F x eq_refl) as [f ->]. cbn [le].
  destruct (SFleb f now) eqn:N; [|discriminate]. intros _.
  rewrite (SFleb_trans f now later N L). reflexivity.
Qed.

Lemma add_float_left (f : spec_float) (y x : pynum) :
  add (PyFloat f) y = Return x -> exists g, x = PyFloat g.
Proof.
  destruct y as [b|g]; cbn [add to_float bind].
  - destruct (float_of_int b); cbn [bind]; intros E; [|discriminate].
    injection E as <-. eauto.
  - intros E. injection E as <-. eauto.
Qed.

(** X8. After [initialize_block], a claim that is open stays open: if
    [check_publish_block] returns True at one clock reading, it returns True
    at every later one (later in the float order), for the same candidate. *)
Theorem check_publish_block_stays_true
    (self : BlockPublisher.t) (h : BlockHeader) (start : spec_float) (k : Z)
    (candidate : BlockHeader) (now later : spec_float) :
  SFleb now later = true ->
  check_publish_block (initialized self h start k) candidate now
  = Return (Some true) ->
  check_publish_block (initialized self h start k) candidate later
  = Return (Some true).
Proof.
  intros L. unfold check_publish_block.
  rewrite initialized_start_time.
  destruct (truthy _ && negb _); [discriminate|].
  destruct (_ =? 0); [reflexivity|].
  destruct (_ && _).
  { apply claim_stays; [|exact L]. intros x. apply add_float_left. }
  destruct (_ && _); [|discriminate].
  apply claim_stays; [|exact L]. intros x. apply add_float_left.
Qed.

Lemma check_publish_block_stays_true_witness :
  check_publish_block
    (initialized (example_publisher (Some 5) (Some 0) None)
                 (example_header "02aa") (seconds 100) 0)
    (example_header "02aa") (seconds 106) = Return (Some true).
Proof.
  apply (check_publish_block_stays_true
           (example_publisher (Some 5) (Some 0) None)
           (example_header "02aa") (seconds 100) 0
           (example_header "02aa") (seconds 105) (seconds 106)).
  - vm_compute. reflexivity.
  - vm_compute. reflexivity.
Defined.

End Polling.

(** ** BlockPublisher.initialize_block: settings, errors, the header *)

Section Initialization.

Import BlockPublisher BlockVerifier.

Lemma initialized_block_cache self h now k :
  _block_cache (initialized self h now k) = _block_cache self.
Proof. unfold initialized, initialize_block. destruct (uniform _ _ _); reflexivity. Qed.

Lemma initialized_state_view_factory self h now k :
  _state_view_factory (initialized self h now k) = _state_view_factory self.
Proof. unfold initialized, initialize_block. destruct (uniform _ _ _); reflexivity. Qed.

Lemma initialized_valid_block_publishers self h now k :
  _valid_block_publishers (initialized self h now k)
  = get_setting
      (fun key =>
         option_map Some
           (setting_list
              (create_view (_state_view_factory self)
                 match chain_head (block_store (_block_cache self)) with
                 | Some head => wrapper_state_root_hash head
                 | None => state_root_hash h
                 end) key))
      "sawtooth.consensus.valid_block_publishers"
      (_valid_block_publishers self).
Proof. unfold initialized, initialize_block. destruct (uniform _ _ _); reflexivity. Qed.

(** X9. With none of the three settings on chain, a publisher fresh from
    its constructor claims at once: [initialize_block] returns True and
    [check_publish_block] returns True for every candidate, signer, clock
    reading and random draw. *)
Theorem fresh_publisher_without_settings_claims_at_once
    (BatchPublisher : Type) (block_cache : BlockCache)
    (state_view_factory : StateViewFactory) (batch_publisher : BatchPublisher)
    (data_dir : string) (h : BlockHeader) (start : spec_float) (k : Z)
    (candidate : BlockHeader) (now : spec_float) :
  (forall root : string,
      setting_int (create_view state_view_factory root)
                  "sawtooth.consensus.min_wait_time" = None
      /\ setting_int (create_view state_view_factory root)
                     "sawtooth.consensus.max_wait_time" = None
      /\ setting_list (create_view state_view_factory root)
                      "sawtooth.consensus.valid_block_publishers" = None) ->
  snd (initialize_block
         (__init__ block_cache state_view_factory batch_publisher data_dir)
         h start k) = Return true
  /\ check_publish_block
       (initialized
          (__init__ block_cache state_view_factory batch_publisher data_dir)
          h start k)
       candidate now = Return (Some true).
Proof.
  intros V.
  set (root := match chain_head (block_store block_cache) with
               | Some head => wrapper_state_root_hash head
               | None => state_root_hash h
               end).
  destruct (V root) as (Vmin & Vmax & Vpub).
  unfold initialized, initialize_block, check_publish_block, ConfigView,
    get_setting.
  cbn [__init__ _block_cache _state_view_factory _min_wait_time _max_wait_time
       _valid_block_publishers].
  fold root. rewrite Vmin, Vmax, Vpub. cbn. split; reflexivity.
Qed.

Lemma fresh_publisher_without_settings_claims_at_once_witness :
  check_publish_block
    (initialized (example_publisher None None None)
                 (example_header "02aa") (seconds 100) 7)
    (example_header "03bb") (seconds 100) = Return (Some true).
Proof.
  apply (fresh_publisher_without_settings_claims_at_once
           unit (mkBlockCache (mkBlockStore None))
           (mkStateViewFactory (fun _ => example_view None None None))
           tt "data" (example_header "02aa") (seconds 100) 7
           (example_header "03bb") (seconds 100)).
  intros root. repeat split.
Defined.

(** X10. A setting that is missing from the state view does not fall back
    to the constructor's default: it keeps the value the previous
    [initialize_block] read.  Before genesis (no chain head), after one call
    on a header whose state holds the three settings and a second call on a
    header whose state holds none, the publisher still has the values of the
    first. *)
Theorem initialize_block_keeps_settings_when_missing
    (self : BlockPublisher.t) (h1 h2 : BlockHeader)
    (start1 start2 : spec_float) (k1 k2 : Z)
    (min_wait max_wait : Z) (publishers : list string) :
  chain_head (block_store (_block_cache self)) = None ->
  setting_int (create_view (_state_view_factory self) (state_root_hash h1))
              "sawtooth.consensus.min_wait_time" = Some min_wait ->
  setting_int (create_view (_state_view_factory self) (state_root_hash h1))
              "sawtooth.consensus.max_wait_time" = Some max_wait ->
  setting_list (create_view (_state_view_factory self) (state_root_hash h1))
               "sawtooth.consensus.valid_block_publishers" = Some publishers ->
  setting_int (create_view (_state_view_factory self) (state_root_hash h2))
              "sawtooth.consensus.min_wait_time" = None ->
  setting_int (create_view (_state_view_factory self) (state_root_hash h2))
              "sawtooth.consensus.max_wait_time" = None ->
  setting_list (create_view (_state_view_factory self) (state_root_hash h2))
               "sawtooth.consensus.valid_block_publishers" = None ->
  _min_wait_time (initialized (initialized self h1 start1 k1) h2 start2 k2)
  = min_wait
  /\ _max_wait_time (initialized (initialized self h1 start1 k1) h2 start2 k2)
     = max_wait
  /\ _valid_block_publishers
       (initialized (initialized self h1 start1 k1) h2 start2 k2)
     = Some publishers.
Proof.
  intros G A1 B1 C1 A2 B2 C2.
  rewrite !initialized_min_wait_time, !initialized_max_wait_time,
    !initialized_valid_block_publishers.
  rewrite !initialized_block_cache, !initialized_state_view_factory, G.
  unfold get_setting. rewrite A1, B1, C1, A2, B2, C2. cbn. auto.
Qed.

Lemma initialize_block_keeps_settings_when_missing_witness :
  _min_wait_time
    (initialized
       (initialized
          (__init__ (mkBlockCache (mkBlockStore None))
             (mkStateViewFactory
                (fun root =>
                   if (root =? "configured")%string
                   then example_view (Some 5) (Some 20) (Some ["02aa"%string])
                   else example_view None None None))
             tt "data")
          (mkBlockHeader 0 "" "02aa" [] "configured") (seconds 100) 7)
       (mkBlockHeader 0 "" "02aa" [] "bare") (seconds 200) 9)
  = 5.
Proof.
  exact (proj1 (initialize_block_keeps_settings_when_missing
                  (__init__ (mkBlockCache (mkBlockStore None))
                     (mkStateViewFactory
                        (fun root =>
                           if (root =? "configured")%string
                           then example_view (Some 5) (Some 20)
                                  (Some ["02aa"%string])
                           else example_view None None None))
                     tt "data")
                  (mkBlockHeader 0 "" "02aa" [] "configured")
                  (mkBlockHeader 0 "" "02aa" [] "bare")
                  (seconds 100) (seconds 200) 7 9 5 20 ["02aa"%string]
                  eq_refl eq_refl eq_refl eq_refl eq_refl eq_refl eq_refl)).
Defined.

End Initialization.

(** ** Wait times too large for a float *)

Section Overflow.

Import BlockPublisher.

Lemma pow2_lt_exponent (a b : Z) : 0 <= b -> 2 ^ a < 2 ^ b -> a < b.
Proof.
  intros B H. destruct (Z.lt_ge_cases a b) as [L|L]; [exact L|].
  assert (2 ^ b <= 2 ^ a) by (apply Z.pow_le_mono_r; lia). lia.
Qed.

(** [float(z)] raises OverflowError from 2^1024 on. *)
Lemma float_of_int_overflow (z : Z) :
  2 ^ 1024 <= z -> float_of_int z = Raise OverflowError.
Proof.
  intros Z. destruct z as [|p|p]; try (exfalso; pow2_positive 1024; lia).
  pose proof (digits2_pos_bounds p) as [D1 D2].
  set (d := Zpos (digits2_pos p)) in *.
  assert (D : 1024 < d) by (apply pow2_lt_exponent; lia).
  unfold float_of_int, binary_normalize, binary_round.
  assert (A : shl_align p 0 (fexp prec emax (Zpos (digits2_pos p) + 0)) = (p, 0)).
  { unfold shl_align. rewrite fexp_binary64. fold d.
    destruct (Z.max (d + 0 - 53) (- 1074) - 0) eqn:E; try reflexivity. lia. }
  rewrite A. unfold binary_round_aux.
  (* first shift: by d - 53 *)
  destruct (shr_fexp prec emax (Zpos p) 0 loc_Exact) as [mrs1 e1] eqn:E1.
  unfold shr_fexp in E1. cbn [shr_record_of_loc Zdigits2] in E1.
  pose proof (shr_exact (Zpos p) 0 (fexp prec emax (Zpos (digits2_pos p) + 0) - 0)
                ltac:(lia)) as [S1 [Q1 _]].
  rewrite E1 in S1, Q1. cbn [fst snd] in S1, Q1.
  rewrite fexp_binary64 in S1, Q1. fold d in S1, Q1.
  replace (Z.max (Z.max (d + 0 - 53) (- 1074) - 0) 0) with (d - 53) in S1, Q1
    by lia.
  pow2_positive (d - 53).
  assert (P : 2 ^ d = 2 ^ (d - 53) * 2 ^ 53)
    by (rewrite <- pow2_split by lia; f_equal; lia).
  assert (P' : 2 ^ (d - 1) = 2 ^ (d - 53) * 2 ^ 52)
    by (rewrite <- pow2_split by lia; f_equal; lia).
  assert (B1 : 2 ^ 52 <= shr_m mrs1 < 2 ^ 53).
  { rewrite Q1. split.
    - apply Z.div_le_lower_bound; lia.
    - apply Z.div_lt_upper_bound; lia. }
  pose proof (round_nearest_even_cases mrs1) as R. cbn zeta in R.
  set (q1 := round_nearest_even (shr_m mrs1) (loc_of_shr_record mrs1)) in *.
  assert (B2 : 2 ^ 52 <= q1 <= 2 ^ 53) by (destruct R as [-> | [-> _]]; lia).
  (* second shift: by at most one *)
  destruct (shr_fexp prec emax q1 e1 loc_Exact) as [mrs2 e2] eqn:E2.
  unfold shr_fexp in E2. cbn [shr_record_of_loc] in E2.
  pose proof (shr_exact q1 e1 (fexp prec emax (Zdigits2 q1 + e1) - e1)
                ltac:(lia)) as [S2 [Q2 _]].
  rewrite E2 in S2, Q2. cbn [fst snd] in S2, Q2.
  rewrite fexp_binary64 in S2, Q2.
  assert (DQ : Zdigits2 q1 <= 54).
  { destruct q1 as [|pq|pq]; try lia. cbn [Zdigits2].
    pose proof (digits2_pos_bounds pq) as [L _].
    assert (Zpos (digits2_pos pq) - 1 < 54); [|lia].
    apply pow2_lt_exponent; [lia|].
    change (2 ^ 54) with (2 ^ 53 * 2). lia. }
  remember (Z.max (Z.max (Zdigits2 q1 + e1 - 53) (- 1074) - e1) 0) as s2 eqn:Hs2.
  assert (S : s2 = 0 \/ s2 = 1) by lia.
  assert (B3 : 0 < shr_m mrs2).
  { rewrite Q2. destruct S as [-> | ->].
    - change (2 ^ 0) with 1. rewrite Z.div_1_r. lia.
    - change (2 ^ 1) with 2.
      assert (2 ^ 51 <= q1 / 2); [|lia].
      apply Z.div_le_lower_bound; [lia|].
      change (2 ^ 52) with (2 * 2 ^ 51) in B2. lia. }
  destruct (shr_m mrs2) as [|m2|m2]; try lia.
  destruct (Z.leb_spec e2 (emax - prec)) as [X|X]; [|reflexivity].
  unfold emax, prec in X. lia.
Qed.

(** X11. [initialize_block] raises OverflowError when the wait times read
    are 2^1024 or more apart (the difference cannot be converted to a
    float).  The call has then already stamped the header, restarted the
    clock and stored the settings, and it leaves the wait time of the
    previous call in place. *)
Theorem initialize_block_overflow
    (self : BlockPublisher.t) (h : BlockHeader) (start : spec_float) (k : Z) :
  2 ^ 1024 <= _max_wait_time (initialized self h start k)
              - _min_wait_time (initialized self h start k) ->
  snd (initialize_block self h start k) = Raise OverflowError
  /\ _wait_time (initialized self h start k) = _wait_time self
  /\ _start_time (initialized self h start k) = PyFloat start
  /\ consensus (stamped self h start k) = Devmode.
Proof.
  intros O.
  assert (U : uniform (_min_wait_time (initialized self h start k))
                      (_max_wait_time (initialized self h start k)) k
              = Raise OverflowError).
  { unfold uniform. cbn [mul to_float]. rewrite (float_of_int_overflow _ O).
    reflexivity. }
  rewrite initialized_min_wait_time, initialized_max_wait_time in U.
  split; [|split; [|split]].
  - unfold initialize_block, ConfigView. rewrite U. reflexivity.
  - unfold initialized, initialize_block, ConfigView. rewrite U. reflexivity.
  - apply initialized_start_time.
  - apply stamped_consensus.
Qed.

Lemma initialize_block_overflow_witness :
  snd (initialize_block (example_publisher (Some 0) (Some (2 ^ 1024)) None)
                        (example_header "02aa") (seconds 100) 7)
  = Raise OverflowError.
Proof.
  apply (initialize_block_overflow
           (example_publisher (Some 0) (Some (2 ^ 1024)) None)
           (example_header "02aa") (seconds 100) 7).
  vm_compute. discriminate.
Defined.

End Overflow.

(** ** The header and the state view *)

Section HeaderAndView.

Import BlockPublisher BlockVerifier.

(** [initialize_block] writes the consensus field of the header and no
    other. *)
Lemma stamped_fields self h now k :
  block_num (stamped self h now k) = block_num h
  /\ previous_block_id (stamped self h now k) = previous_block_id h
  /\ signer_pubkey (stamped self h now k) = signer_pubkey h
  /\ state_root_hash (stamped self h now k) = state_root_hash h.
Proof.
  unfold stamped, initialize_block. destruct (uniform _ _ _); cbn; auto.
Qed.

(** X12. The verifier does not enforce the list of valid publishers: for a
    candidate whose signer the list excludes, [check_publish_block] refuses
    to claim at every clock reading, yet the header [initialize_block]
    stamped for that signer passes [verify_block]. *)
Theorem verify_block_accepts_excluded_signer
    (self : BlockPublisher.t) (h : BlockHeader) (start : spec_float) (k : Z)
    (l : list string) (now : spec_float) :
  _valid_block_publishers (initialized self h start k) = Some l ->
  l <> [] ->
  ~ In (signer_pubkey h) l ->
  check_publish_block (initialized self h start k) (stamped self h start k) now
  = Return (Some false)
  /\ verify_block (mkBlockWrapper (stamped self h start k)) = true.
Proof.
  intros V N I. split.
  - unfold check_publish_block.
    destruct (stamped_fields self h start k) as (_ & _ & -> & _).
    rewrite V, (excluded_guard l _ N I). reflexivity.
  - apply bytes_eqb_eq. apply stamped_consensus.
Qed.

Lemma verify_block_accepts_excluded_signer_witness :
  check_publish_block
    (initialized (example_publisher (Some 0) (Some 0) (Some ["02aa"%string]))
                 (example_header "03bb") (seconds 100) 7)
    (stamped (example_publisher (Some 0) (Some 0) (Some ["02aa"%string]))
             (example_header "03bb") (seconds 100) 7)
    (seconds 200) = Return (Some false)
  /\ verify_block
       (mkBlockWrapper
          (stamped (example_publisher (Some 0) (Some 0) (Some ["02aa"%string]))
                   (example_header "03bb") (seconds 100) 7)) = true.
Proof.
  apply (verify_block_accepts_excluded_signer
           (example_publisher (Some 0) (Some 0) (Some ["02aa"%string]))
           (example_header "03bb") (seconds 100) 7 ["02aa"%string]
           (seconds 200)).
  - reflexivity.
  - discriminate.
  - cbn. intros [E|[]]. discriminate.
Defined.


End HeaderAndView.

(** ** BlockPublisher.check_publish_block: the fixed delay *)

Section FixedDelay.

Import BlockPublisher.

(** X14. The fixed-delay branch after [initialize_block]: with
    0 < min_wait_time <= 2^53, max_wait_time <= 0 and a permitted signer,
    [check_publish_block] does not raise; min_wait_time converts to a float
    of the same value, and the call returns True when
    start + min_wait_time <= now (float addition and comparison) and None
    otherwise. *)
Theorem check_publish_block_fixed_delay_after_initialize
    (self : BlockPublisher.t) (h : BlockHeader) (start : spec_float) (k : Z)
    (candidate : BlockHeader) (now : spec_float) :
  0 < _min_wait_time (initialized self h start k) <= 2 ^ 53 ->
  _max_wait_time (initialized self h start k) <= 0 ->
  permitted (_valid_block_publishers (initialized self h start k))
            (signer_pubkey candidate) ->
  exists delay : spec_float,
    float_of_int (_min_wait_time (initialized self h start k)) = Return delay
    /\ le (PyInt (_min_wait_time (initialized self h start k))) (PyFloat delay)
       = true
    /\ le (PyFloat delay) (PyInt (_min_wait_time (initialized self h start k)))
       = true
    /\ check_publish_block (initialized self h start k) candidate now
       = Return (if SFleb (float_add start delay) now
                 then Some true else None).
Proof.
  intros M X P.
  destruct (float_of_int_exact (_min_wait_time (initialized self h start k)))
    as (delay & F & B); [lia|].
  destruct (le_of_float_between _ _ _ B) as [L1 L2].
  exists delay. repeat (split; [assumption|]).
  rewrite (check_publish_block_fixed_delay _ candidate now
             (PyFloat (float_add start delay))); try assumption; try lia.
  - reflexivity.
  - rewrite initialized_start_time. cbn [add to_float]. rewrite F. reflexivity.
Qed.

Lemma check_publish_block_fixed_delay_after_initialize_witness :
  exists delay : spec_float,
    float_of_int 5 = Return delay
    /\ le (PyInt 5) (PyFloat delay) = true
    /\ le (PyFloat delay) (PyInt 5) = true
    /\ check_publish_block
         (initialized (example_publisher (Some 5) (Some 0) None)
                      (example_header "02aa") (seconds 100) 7)
         (example_header "02aa") (seconds 105)
       = Return (if SFleb (float_add (seconds 100) delay) (seconds 105)
                 then Some true else None).
Proof.
  apply (check_publish_block_fixed_delay_after_initialize
           (example_publisher (Some 5) (Some 0) None)
           (example_header "02aa") (seconds 100) 7
           (example_header "02aa") (seconds 105)).
  - cbn. lia.
  - cbn. lia.
  - apply permitted_unset.
Defined.

(** X15. [check_publish_block] raises OverflowError, at every clock
    reading, after [initialize_block] has read a min_wait_time of 2^1024 or
    more with max_wait_time <= 0, for a permitted signer: the deadline
    start + min_wait_time cannot be computed. *)
Theorem check_publish_block_overflow
    (self : BlockPublisher.t) (h : BlockHeader) (start : spec_float) (k : Z)
    (candidate : BlockHeader) (now : spec_float) :
  2 ^ 1024 <= _min_wait_time (initialized self h start k) ->
  _max_wait_time (initialized self h start k) <= 0 ->
  permitted (_valid_block_publishers (initialized self h start k))
            (signer_pubkey candidate) ->
  check_publish_block (initialized self h start k) candidate now
  = Raise OverflowError.
Proof.
  intros M X P. unfold check_publish_block.
  rewrite (permitted_guard _ _ P), initialized_start_time.
  pow2_positive 1024.
  destruct (Z.eqb_spec (_min_wait_time (initialized self h start k)) 0); [lia|].
  rewrite Z.gtb_ltb.
  destruct (Z.ltb_spec 0 (_min_wait_time (initialized self h start k))); [|lia].
  destruct (Z.leb_spec (_max_wait_time (initialized self h start k)) 0); [|lia].
  cbn [andb add to_float]. rewrite (float_of_int_overflow _ M). reflexivity.
Qed.

Lemma check_publish_block_overflow_witness :
  check_publish_block
    (initialized (example_publisher (Some (2 ^ 1024)) (Some 0) None)
                 (example_header "02aa") (seconds 100) 7)
    (example_header "02aa") (seconds 105)
  = Raise OverflowError.
Proof.
  apply (check_publish_block_overflow
           (example_publisher (Some (2 ^ 1024)) (Some 0) None)
           (example_header "02aa") (seconds 100) 7
           (example_header "02aa") (seconds 105)).
  - vm_compute. discriminate.
  - vm_compute. discriminate.
  - apply permitted_unset.
Defined.

End FixedDelay.
